(** * BasicNextStepGenerator: transcript construction and next-step generation

    A shallow embedding of [BasicNextStepGenerator] (constructor,
    [generateMessages], [formatOutput], [generateNextStep]) together with the
    interfaces it consumes, and the properties of the agent loop's core that
    follow from the code. *)

From Stdlib Require Import Ascii String.
From stdpp Require Import gmap strings list pretty.

(** ** Exceptions

    A thrown value is an [Error] object, seen through its [name] and
    [message].  A call either returns or throws; an awaited promise either
    resolves ([Ok]) or rejects ([Throw]). *)

Record Thrown : Type := { name : string; message : string }.

Definition Error (msg : string) : Thrown := {| name := "Error"; message := msg |}.
Definition ZodError (issues : string) : Thrown := {| name := "ZodError"; message := issues |}.
Definition TypeError (msg : string) : Thrown := {| name := "TypeError"; message := msg |}.

Inductive Outcome (A : Type) : Type :=
| Ok (a : A)
| Throw (e : Thrown).
Arguments Ok {A} a.
Arguments Throw {A} e.

#[global] Instance Outcome_ret : MRet Outcome := fun A a => Ok a.
#[global] Instance Outcome_bind : MBind Outcome := fun A B f m =>
  match m with
  | Ok a => f a
  | Throw e => Throw e
  end.

(** ** JavaScript values

    The data a step's [output] or an action's parameters can hold, as finite
    trees: [undefined], [null], booleans, numbers, BigInts, strings, symbols,
    arrays and plain objects.  A number is a safe integer (at most 2^53 - 1 in
    absolute value), the numbers that print as their plain decimal digits; a
    string is the UTF-8 encoding of a well-formed text; an object is the list
    of its own enumerable string-keyed properties, each key once, in
    enumeration order.  Functions, and so objects with methods, are not data
    of this model. *)

Definition MAX_SAFE_INTEGER : Z := 2 ^ 53 - 1.

Record SafeInteger : Type := {
  toZ : Z;
  isSafe : Is_true ((- MAX_SAFE_INTEGER <=? toZ)%Z && (toZ <=? MAX_SAFE_INTEGER)%Z);
}.

#[local] Unset Elimination Schemes.
Inductive JsValue : Type :=
| JUndefined
| JNull
| JBool (b : bool)
| JNumber (n : SafeInteger)
| JBigInt (n : Z)
| JString (s : string)
| JSymbol (description : string)
| JArray (elems : list JsValue)
| JObject (props : list (string * JsValue)).
#[local] Set Elimination Schemes.

(** The number literal [n], for a literal in the safe range. *)
Abbreviation JInt n := (JNumber {| toZ := n; isSafe := I |}).

(** [v == null] *)
Definition isNullish (v : JsValue) : bool :=
  match v with
  | JUndefined | JNull => true
  | _ => false
  end.

(** ** JSON.stringify *)

Module JSON.

Definition dquote : ascii := "034"%char.
Definition backslash : ascii := "092"%char.

Definition hexDigit (n : N) : ascii :=
  if (n <? 10)%N then ascii_of_N (48 + n) else ascii_of_N (87 + n).

(** One character of a quoted string (QuoteJSONString): the quote, the
    backslash and the control characters are escaped, every other character
    is kept. *)
Definition escapeChar (c : ascii) : string :=
  let n := N_of_ascii c in
  if (n =? 8)%N then String backslash "b"
  else if (n =? 9)%N then String backslash "t"
  else if (n =? 10)%N then String backslash "n"
  else if (n =? 12)%N then String backslash "f"
  else if (n =? 13)%N then String backslash "r"
  else if (n =? 34)%N then String backslash (String dquote "")
  else if (n =? 92)%N then String backslash (String backslash "")
  else if (n <? 32)%N then
    String backslash ("u00" +:+ String (hexDigit (n / 16)) (String (hexDigit (n mod 16)) ""))
  else String c "".

Fixpoint escape (s : string) : string :=
  match s with
  | EmptyString => ""
  | String c rest => escapeChar c +:+ escape rest
  end.

Definition quote (s : string) : string :=
  String dquote (escape s +:+ String dquote "").

Fixpoint join (sep : string) (parts : list string) : string :=
  match parts with
  | [] => ""
  | [p] => p
  | p :: rest => p +:+ sep +:+ join sep rest
  end.

(** [JSON.stringify(v)] with no replacer and no indentation.  [Ok None] is
    the [undefined] it returns for [undefined] and for a symbol; inside an
    array these print as [null], inside an object the property is left out.
    A BigInt anywhere in the value makes it throw a TypeError (with V8's
    message). *)
Fixpoint stringify (v : JsValue) : Outcome (option string) :=
  match v with
  | JUndefined | JSymbol _ => Ok None
  | JNull => Ok (Some "null")
  | JBool true => Ok (Some "true")
  | JBool false => Ok (Some "false")
  | JNumber n => Ok (Some (pretty (toZ n)))
  | JBigInt _ => Throw (TypeError "Do not know how to serialize a BigInt")
  | JString s => Ok (Some (quote s))
  | JArray elems =>
      let fix elements (l : list JsValue) : Outcome (list string) :=
        match l with
        | [] => Ok []
        | x :: rest =>
            match stringify x with
            | Throw e => Throw e
            | Ok printed =>
                match elements rest with
                | Throw e => Throw e
                | Ok parts => Ok (default "null" printed :: parts)
                end
            end
        end in
      match elements elems with
      | Throw e => Throw e
      | Ok parts => Ok (Some ("[" +:+ join "," parts +:+ "]"))
      end
  | JObject props =>
      let fix members (l : list (string * JsValue)) : Outcome (list string) :=
        match l with
        | [] => Ok []
        | (k, x) :: rest =>
            match stringify x with
            | Throw e => Throw e
            | Ok printed =>
                match members rest with
                | Throw e => Throw e
                | Ok parts =>
                    match printed with
                    | Some text => Ok ((quote k +:+ ":" +:+ text) :: parts)
                    | None => Ok parts
                    end
                end
            end
        end in
      match members props with
      | Throw e => Throw e
      | Ok parts => Ok (Some ("{" +:+ join "," parts +:+ "}"))
      end
  end.

End JSON.

(** ** Chat messages (OpenAIChatMessage) *)

Module ChatMessage.
Inductive Role : Type := system | user | assistant.
Record t : Type := { role : Role; content : string }.
End ChatMessage.

Abbreviation OpenAIChatMessage := ChatMessage.t.

(** ** Steps *)

Inductive StepState : Type :=
| succeeded (output : JsValue) (summary : string)
| failed (summary : string).

(** A step object is given by the class it was built from and the constructor
    arguments: [new NoopStep({type, generatedText, summary})],
    [new ErrorStep({generatedText, error})], or, for a step built by an action
    handler, the three fields the transcript reads. *)
Inductive Step : Type :=
| NoopStep (type : string) (generatedText : string) (summary : string)
| ErrorStep (generatedText : string) (error : Thrown)
| ActionStep (type : string) (generatedText : option string) (state : StepState).

(** Modelled from the spec: Step.ts, NoopStep.ts and ErrorStep.ts are not in
    src.  [step.type] is the tag of what produced the step, "thought" and
    "error" included. *)
Definition stepType (step : Step) : string :=
  match step with
  | NoopStep type _ _ => type
  | ErrorStep _ _ => "error"
  | ActionStep type _ _ => type
  end.

(** Modelled from the spec: Step.ts, NoopStep.ts and ErrorStep.ts are not in
    src.  [step.generatedText] is the raw model text, present whenever the step
    came from a model call. *)
Definition stepGeneratedText (step : Step) : option string :=
  match step with
  | NoopStep _ generatedText _ => Some generatedText
  | ErrorStep generatedText _ => Some generatedText
  | ActionStep _ generatedText _ => generatedText
  end.

(** Modelled from the spec: Step.ts, NoopStep.ts and ErrorStep.ts are not in
    src.  [step.state] is one of the two variants; a thought is [succeeded]
    with the output absent; an error step is [failed], its summary explaining
    the failure. *)
Definition stepState (step : Step) : StepState :=
  match step with
  | NoopStep _ _ summary => succeeded JUndefined summary
  | ErrorStep _ error => failed (message error)
  | ActionStep _ _ state => state
  end.

(** ** Collaborators *)

(** zod: what [schema.safeParse(v)] answers, the parsed data or the issues of
    the failed validation. *)
Record ZodType : Type := { safeParse : JsValue → string + JsValue }.

(** The [result] argument of [formatResult]. *)
Record FormatterResult : Type := { summary : string; output : JsValue }.

Record ResultFormatter : Type := {
  outputSchema : ZodType;
  formatResult : FormatterResult → string;
}.

(** Modelled from the spec: ResultFormatterRegistry.ts is not in src.  The
    registry maps a step's type to an optional formatter;
    [new ResultFormatterRegistry()] is the empty registry. *)
Record ResultFormatterRegistry : Type := { formatters : gmap string ResultFormatter }.

Definition new_ResultFormatterRegistry : ResultFormatterRegistry :=
  {| formatters := ∅ |}.

Definition getResultFormatter (registry : ResultFormatterRegistry) (type : string)
  : option ResultFormatter :=
  formatters registry !! type.

(** The observer of a run: an object with the two hooks
    [onStepGenerationStarted] and [onStepGenerationFinished].  Its interface
    gives a hook no result and no failure: an invocation is a notification,
    recorded in the trace of the call, and returns. *)
Record AgentRunObserver : Type := { observerId : nat }.

Record AgentRun : Type := {
  instructions : string;
  observer : option AgentRunObserver;
}.

(** What [format.parse(text)] returns: [{action?, _freeText, ...fields}]. *)
Record ActionParameters : Type := {
  action : option string;
  _freeText : string;
  fields : list (string * JsValue);
}.

Record Action : Type := {
  createStep : string → ActionParameters → Outcome Step;
}.

(** The part of ActionRegistry the generator uses (ActionRegistry.ts is not in
    src): the instructions text, [format.parse], which throws on text it
    cannot interpret, and [getAction], which throws on an unknown
    identifier. *)
Record ActionRegistry : Type := {
  getAvailableActionInstructions : string;
  format_parse : string → Outcome ActionParameters;
  getAction : string → Outcome Action;
}.

Record ChatTextGenerator : Type := {
  generateText : list OpenAIChatMessage → AgentRun → Outcome string;
}.

(** ** BasicNextStepGenerator *)

Record BasicNextStepGenerator : Type := {
  role : string;
  constraints : string;
  actionRegistry : ActionRegistry;
  textGenerator : ChatTextGenerator;
  resultFormatterRegistry : ResultFormatterRegistry;
}.

(** An argument a JavaScript caller passes: left out, [null], or a value. *)
Inductive Arg (A : Type) : Type :=
| undefined
| null
| val (a : A).
Arguments undefined {A}.
Arguments null {A}.
Arguments val {A} a.

(** [a == null] *)
Definition isNull {A : Type} (a : Arg A) : bool :=
  match a with
  | val _ => false
  | _ => true
  end.

(** The constructor.  [resultFormatterRegistry] is declared optional: [None]
    is the omitted argument, which takes the default
    [new ResultFormatterRegistry()]. *)
Definition constructor
    (role constraints : Arg string)
    (actionRegistry : Arg ActionRegistry)
    (textGenerator : Arg ChatTextGenerator)
    (resultFormatterRegistry : option ResultFormatterRegistry)
  : Outcome BasicNextStepGenerator :=
  let resultFormatterRegistry := default new_ResultFormatterRegistry resultFormatterRegistry in
  match role with
  | undefined | null => Throw (Error "role is required")
  | val role =>
  match constraints with
  | undefined | null => Throw (Error "constraints is required")
  | val constraints =>
  match actionRegistry with
  | undefined | null => Throw (Error "actionRegistry is required")
  | val actionRegistry =>
  match textGenerator with
  | undefined | null => Throw (Error "textGenerator is required")
  | val textGenerator =>
      Ok {| role := role;
            constraints := constraints;
            actionRegistry := actionRegistry;
            textGenerator := textGenerator;
            resultFormatterRegistry := resultFormatterRegistry |}
  end end end end.

(** *** generateMessages *)

Definition newline : string := String "010"%char "".

(** [for (const x of xs) { ... }] over a local variable the body updates;
    a throw in the body leaves the loop. *)
Fixpoint forOf {A S : Type} (body : S → A → Outcome S) (xs : list A) (s : S) : Outcome S :=
  match xs with
  | [] => Ok s
  | x :: rest => s' ← body s x; forOf body rest s'
  end.

(** [zod.object({output: outputSchema, summary: zod.string()}).parse(result)]
    on a step state: [summary] is a string in both states, [output] is
    [undefined] in a failed one; [parse] throws a ZodError carrying the
    issues.  The state's other keys are stripped. *)
Definition schema_parse (outputSchema : ZodType) (result : StepState) : Outcome FormatterResult :=
  let '(output, summary) :=
    match result with
    | succeeded output summary => (output, summary)
    | failed summary => (JUndefined, summary)
    end in
  match safeParse outputSchema output with
  | inr parsed => Ok {| summary := summary; output := parsed |}
  | inl issues => Throw (ZodError issues)
  end.

Definition formatOutput (resultFormatter : ResultFormatter) (result : StepState) : Outcome string :=
  parsedResult ← schema_parse (outputSchema resultFormatter) result;
  mret (formatResult resultFormatter
          {| summary := summary parsedResult; output := output parsedResult |}).

(** The [switch] on the step's state: the [content] it leaves, [None] for
    [undefined]. *)
Definition stateContent (this : BasicNextStepGenerator) (step : Step) : Outcome (option string) :=
  let stepState := stepState step in
  match stepState with
  | failed summary => Ok (Some ("ERROR:" +:+ newline +:+ summary))
  | succeeded output _ =>
      if isNullish output then Ok None
      else
        match getResultFormatter (resultFormatterRegistry this) (stepType step) with
        | None => JSON.stringify output
        | Some resultFormatter =>
            content ← formatOutput resultFormatter stepState; mret (Some content)
        end
  end.

(** The body of the loop over [completedSteps]; [messages.push(m)] is
    [messages ++ [m]]. *)
Definition pushStep (this : BasicNextStepGenerator)
    (messages : list OpenAIChatMessage) (step : Step) : Outcome (list OpenAIChatMessage) :=
  let messages :=
    match stepGeneratedText step with
    | Some generatedText =>
        messages ++ [{| ChatMessage.role := ChatMessage.assistant;
                        ChatMessage.content := generatedText |}]
    | None => messages
    end in
  content ← stateContent this step;
  match content with
  | Some content =>
      Ok (messages ++ [{| ChatMessage.role := ChatMessage.system;
                          ChatMessage.content := content |}])
  | None => Ok messages
  end.

Definition systemPrompt (this : BasicNextStepGenerator) : string :=
  "## ROLE" +:+ newline +:+ role this +:+ newline +:+ newline +:+
  "## CONSTRAINTS" +:+ newline +:+ constraints this +:+ ";" +:+ newline +:+ newline +:+
  "## AVAILABLE ACTIONS" +:+ newline +:+
  getAvailableActionInstructions (actionRegistry this).

Definition generateMessages (this : BasicNextStepGenerator)
    (completedSteps : list Step) (run : AgentRun) : Outcome (list OpenAIChatMessage) :=
  let messages :=
    [ {| ChatMessage.role := ChatMessage.system;
         ChatMessage.content := systemPrompt this |};
      {| ChatMessage.role := ChatMessage.user;
         ChatMessage.content := "## TASK" +:+ newline +:+ instructions run |} ] in
  forOf (pushStep this) completedSteps messages.

(** The assistant message that repeats a step's [generatedText], when the
    step carries one: what the loop body pushes first. *)
Definition repeated (step : Step) : list OpenAIChatMessage :=
  match stepGeneratedText step with
  | Some generatedText =>
      [{| ChatMessage.role := ChatMessage.assistant; ChatMessage.content := generatedText |}]
  | None => []
  end.

(** The serialization of a succeeded state in the spec's words: the default
    structural serialization of the pair [{summary, output}]. *)
Definition stringifySummaryOutput (summary : string) (output : JsValue)
  : Outcome (option string) :=
  JSON.stringify (JObject [("summary", JString summary); ("output", output)]).

(** *** generateNextStep

    The body of the async function runs against a trace: every hook
    invocation and every call to a collaborator is appended to it, in the
    order the code makes them.  A throw (or a rejected await) ends the body
    unless a [try] catches it; the trace written so far stays. *)

Inductive Event : Type :=
| OnStepGenerationStarted (run : AgentRun) (messages : list OpenAIChatMessage)
| GenerateText (messages : list OpenAIChatMessage) (run : AgentRun)
| Parse (generatedText : string)
| GetAction (id : string)
| CreateStep (generatedText : string) (input : ActionParameters)
| OnStepGenerationFinished (run : AgentRun) (generatedText : string) (step : Step).

Definition Async (A : Type) : Type := list Event → Outcome A * list Event.

#[global] Instance Async_ret : MRet Async := fun A a trace => (Ok a, trace).
#[global] Instance Async_bind : MBind Async := fun A B f m trace =>
  match m trace with
  | (Ok a, trace') => f a trace'
  | (Throw e, trace') => (Throw e, trace')
  end.

(** A computation that touches no collaborator. *)
Definition lift {A : Type} (r : Outcome A) : Async A := fun trace => (r, trace).

(** A call to a collaborator, with the outcome the collaborator gives. *)
Definition call {A : Type} (e : Event) (r : Outcome A) : Async A :=
  fun trace => (r, trace ++ [e]).

(** [run.observer?.hook(...)] *)
Definition notify (run : AgentRun) (e : Event) : Async unit :=
  match observer run with
  | Some _ => call e (Ok tt)
  | None => mret tt
  end.

(** [try { body } catch (error) { handler }] *)
Definition tryCatch {A : Type} (body : Async A) (handler : Thrown → Async A) : Async A :=
  fun trace =>
    match body trace with
    | (Ok a, trace') => (Ok a, trace')
    | (Throw error, trace') => handler error trace'
    end.

Definition generateNextStep (this : BasicNextStepGenerator)
    (completedSteps : list Step) (run : AgentRun) : Async Step :=
  messages ← lift (generateMessages this completedSteps run);
  notify run (OnStepGenerationStarted run messages);;
  generatedText ←
    call (GenerateText messages run) (generateText (textGenerator this) messages run);
  actionParameters ←
    call (Parse generatedText) (format_parse (actionRegistry this) generatedText);
  step ←
    match action actionParameters with
    | None => mret (NoopStep "thought" generatedText (_freeText actionParameters))
    | Some id =>
        tryCatch
          (action ← call (GetAction id) (getAction (actionRegistry this) id);
           call (CreateStep generatedText actionParameters)
                (createStep action generatedText actionParameters))
          (fun error => mret (ErrorStep generatedText error))
    end;
  notify run (OnStepGenerationFinished run generatedText step);;
  mret step.

(** What a hook invocation leaves in the trace: the event when the run has an
    observer, nothing otherwise. *)
Definition hook (run : AgentRun) (e : Event) : list Event :=
  match observer run with
  | Some _ => [e]
  | None => []
  end.

(** Reading a trace. *)
Definition isStarted (e : Event) : bool :=
  match e with OnStepGenerationStarted _ _ => true | _ => false end.

Definition isFinished (e : Event) : bool :=
  match e with OnStepGenerationFinished _ _ _ => true | _ => false end.

Definition isGenerateText (e : Event) : bool :=
  match e with GenerateText _ _ => true | _ => false end.

Definition invocations (which : Event → bool) (trace : list Event) : nat :=
  length (List.filter which trace).

(** ** The same transcript construction over the object store

    [generateMessages] receives references: to the [completedSteps] array,
    whose elements are references to step objects, and to the run.  The only
    object it writes is the array [messages] it allocates.  Here the store is
    explicit: a read looks the reference up, the array literal allocates, and
    [push] updates the array in place. *)

Module Store.

Definition loc : Type := positive.

Inductive Obj : Type :=
| StepArray (elems : list loc)
| StepObject (step : Step)
| RunObject (run : AgentRun)
| MessageArray (messages : list OpenAIChatMessage).

Definition Mut (A : Type) : Type := gmap loc Obj → Outcome A * gmap loc Obj.

#[global] Instance Mut_ret : MRet Mut := fun A a h => (Ok a, h).
#[global] Instance Mut_bind : MBind Mut := fun A B f m h =>
  match m h with
  | (Ok a, h') => f a h'
  | (Throw e, h') => (Throw e, h')
  end.

(** What a reference that holds no object of the expected class gives at
    the first property access. *)
Definition TypeError : Thrown :=
  {| name := "TypeError"; message := "cannot read properties" |}.

Definition pure {A : Type} (r : Outcome A) : Mut A := fun h => (r, h).

Definition alloc (o : Obj) : Mut loc :=
  fun h => let l := fresh (dom h) in (Ok l, <[l := o]> h).

Definition readRun (l : loc) : Mut AgentRun :=
  fun h => match h !! l with
           | Some (RunObject run) => (Ok run, h)
           | _ => (Throw TypeError, h)
           end.

Definition readArray (l : loc) : Mut (list loc) :=
  fun h => match h !! l with
           | Some (StepArray elems) => (Ok elems, h)
           | _ => (Throw TypeError, h)
           end.

Definition readStep (l : loc) : Mut Step :=
  fun h => match h !! l with
           | Some (StepObject step) => (Ok step, h)
           | _ => (Throw TypeError, h)
           end.

(** [messages.push(m)] *)
Definition push (messages : loc) (m : OpenAIChatMessage) : Mut unit :=
  fun h => match h !! messages with
           | Some (MessageArray ms) => (Ok tt, <[messages := MessageArray (ms ++ [m])]> h)
           | _ => (Throw TypeError, h)
           end.

Fixpoint forEach {A : Type} (body : A → Mut unit) (xs : list A) : Mut unit :=
  match xs with
  | [] => mret tt
  | x :: rest => body x;; forEach body rest
  end.

(** The body of the loop, on the reference [messages]. *)
Definition pushStep (this : BasicNextStepGenerator) (messages : loc) (stepRef : loc) : Mut unit :=
  step ← readStep stepRef;
  match stepGeneratedText step with
  | Some generatedText =>
      push messages {| ChatMessage.role := ChatMessage.assistant;
                       ChatMessage.content := generatedText |}
  | None => mret tt
  end;;
  content ← pure (stateContent this step);
  match content with
  | Some content =>
      push messages {| ChatMessage.role := ChatMessage.system;
                       ChatMessage.content := content |}
  | None => mret tt
  end.

Definition generateMessages (this : BasicNextStepGenerator)
    (completedSteps : loc) (run : loc) : Mut loc :=
  runObject ← readRun run;
  messages ← alloc (MessageArray
    [ {| ChatMessage.role := ChatMessage.system;
         ChatMessage.content := systemPrompt this |};
      {| ChatMessage.role := ChatMessage.user;
         ChatMessage.content := "## TASK" +:+ newline +:+ instructions runObject |} ]);
  steps ← readArray completedSteps;
  forEach (pushStep this messages) steps;;
  mret messages.

(** The objects of [steps], in order, as the store [h] holds them. *)
Definition holdsSteps (h : gmap loc Obj) (elems : list loc) (steps : list Step) : Prop :=
  Forall2 (fun l step => h !! l = Some (StepObject step)) elems steps.

End Store.

(** ** A running example: the researcher agent *)

Module Example.

Definition searchAction : Action :=
  {| createStep := fun generatedText input =>
       Ok (ActionStep "search" (Some generatedText) (succeeded JUndefined "pending search")) |}.

Definition failingAction : Action :=
  {| createStep := fun _ _ => Throw (Error "quota exceeded") |}.

(** The parser of the example: the text "search" names the search action,
    "crash" an action whose handler fails, "fly" an action nobody
    registered, an empty text cannot be parsed, any other text is free
    text. *)
Definition parse (text : string) : Outcome ActionParameters :=
  if String.eqb text "" then Throw (Error "no text")
  else if String.eqb text "search" then
    Ok {| action := Some "search"; _freeText := ""; fields := [("query", JString "X")] |}
  else if String.eqb text "crash" then
    Ok {| action := Some "crash"; _freeText := ""; fields := [] |}
  else if String.eqb text "fly" then
    Ok {| action := Some "fly"; _freeText := ""; fields := [] |}
  else Ok {| action := None; _freeText := text; fields := [] |}.

Definition registry : ActionRegistry :=
  {| getAvailableActionInstructions := "search: look something up";
     format_parse := parse;
     getAction := fun id =>
       if String.eqb id "search" then Ok searchAction
       else if String.eqb id "crash" then Ok failingAction
       else Throw (Error ("unknown action " +:+ id)) |}.

(** A text generator that answers with a fixed text. *)
Definition answering (text : string) : ChatTextGenerator :=
  {| generateText := fun _ _ => Ok text |}.

Definition unreachable : ChatTextGenerator :=
  {| generateText := fun _ _ => Throw (Error "network down") |}.

(** A formatter for "search" steps: the output has to be an array, which
    is rendered as the number of hits after the summary. *)
Definition hitsFormatter : ResultFormatter :=
  {| outputSchema :=
       {| safeParse := fun v =>
            match v with
            | JArray _ => inr v
            | _ => inl "output: expected array"
            end |};
     formatResult := fun result =>
       match output result with
       | JArray hits => summary result +:+ ": " +:+ pretty (length hits) +:+ " hits"
       | _ => summary result
       end |}.

Definition generator (textGenerator : ChatTextGenerator)
    (formatters : gmap string ResultFormatter) : BasicNextStepGenerator :=
  {| role := "Researcher";
     constraints := "Be concise";
     actionRegistry := registry;
     textGenerator := textGenerator;
     resultFormatterRegistry := {| formatters := formatters |} |}.

Definition observed : AgentRun :=
  {| instructions := "Find X"; observer := Some {| observerId := 1 |} |}.

Definition unobserved : AgentRun :=
  {| instructions := "Find X"; observer := None |}.

End Example.

(** ** Reading a transcript *)

(** The content of a message when it has the given role. *)
Definition contentOf (r : ChatMessage.Role) (m : OpenAIChatMessage) : option string :=
  match r, ChatMessage.role m with
  | ChatMessage.system, ChatMessage.system
  | ChatMessage.user, ChatMessage.user
  | ChatMessage.assistant, ChatMessage.assistant => Some (ChatMessage.content m)
  | _, _ => None
  end.

(** The contents of the messages of one role, in transcript order. *)
Definition contentsOf (r : ChatMessage.Role) (messages : list OpenAIChatMessage) : list string :=
  omap (contentOf r) messages.

(** * Properties *)

(** ** The loop over the completed steps *)

Lemma forOf_app {A S : Type} (body : S → A → Outcome S) (xs ys : list A) (s : S) :
  forOf body (xs ++ ys) s = s' ← forOf body xs s; forOf body ys s'.
Proof.
  revert s. induction xs as [|x xs IH]; intros s; simpl; [done|].
  destruct (body s x) as [s'|e]; simpl; [apply IH|done].
Qed.

Lemma forOf_snoc {A S : Type} (body : S → A → Outcome S) (xs : list A) (x : A) (s : S) :
  forOf body (xs ++ [x]) s = s' ← forOf body xs s; body s' x.
Proof.
  rewrite forOf_app. destruct (forOf body xs s) as [s'|e]; simpl; [|done].
  by destruct (body s' x).
Qed.

(** The transcript of [pre ++ step :: post] is the one of [pre], then what the
    loop body pushes for [step], then the loop over [post]. *)
Lemma generateMessages_split this pre step post run before :
  generateMessages this pre run = Ok before →
  generateMessages this (pre ++ step :: post) run
  = after ← pushStep this before step; forOf (pushStep this) post after.
Proof.
  unfold generateMessages. intros Hpre. by rewrite forOf_app, Hpre.
Qed.

Lemma generateMessages_snoc this pre step run before :
  generateMessages this pre run = Ok before →
  generateMessages this (pre ++ [step]) run = pushStep this before step.
Proof.
  intros Hpre. rewrite (generateMessages_split _ _ _ _ _ _ Hpre).
  by destruct (pushStep this before step).
Qed.

(** The loop body only appends. *)
Lemma pushStep_extends this messages step messages' :
  pushStep this messages step = Ok messages' →
  ∃ pushed, messages' = messages ++ pushed.
Proof.
  unfold pushStep. intros H.
  destruct (stateContent this step) as [[content|]|e]; simpl in H; [| |done];
    injection H as <-; destruct (stepGeneratedText step) as [text|].
  - rewrite <- app_assoc. eauto.
  - eauto.
  - eauto.
  - exists []. by rewrite app_nil_r.
Qed.

Lemma forOf_pushStep_extends this steps messages messages' :
  forOf (pushStep this) steps messages = Ok messages' →
  ∃ pushed, messages' = messages ++ pushed.
Proof.
  revert messages. induction steps as [|step steps IH]; intros messages H; simpl in H.
  - injection H as <-. exists []. by rewrite app_nil_r.
  - destruct (pushStep this messages step) as [mid|e] eqn:Hstep; simpl in H; [|done].
    apply pushStep_extends in Hstep as [p1 ->].
    apply IH in H as [p2 ->]. rewrite <- app_assoc. eauto.
Qed.

(** A throw of the loop body is a throw of the whole transcript
    construction, whatever follows the step. *)
Lemma generateMessages_throw this pre step post run before e :
  generateMessages this pre run = Ok before →
  pushStep this before step = Throw e →
  generateMessages this (pre ++ step :: post) run = Throw e.
Proof.
  intros Hpre Hstep. by rewrite (generateMessages_split _ _ _ _ _ _ Hpre), Hstep.
Qed.

(** ** JSON.stringify on small values *)

Example stringify_number : JSON.stringify (JInt 42) = Ok (Some "42").
Proof. reflexivity. Qed.

Example stringify_object :
  JSON.stringify (JObject [("a", JArray [JInt (-1); JUndefined; JSymbol "s"; JBool true]);
                           ("b", JUndefined);
                           ("c", JString "x")])
  = Ok (Some ("{" +:+ JSON.quote "a" +:+ ":[-1,null,null,true]," +:+ JSON.quote "c" +:+ ":"
                +:+ JSON.quote "x" +:+ "}")).
Proof. vm_compute. reflexivity. Qed.

Example stringify_bigint :
  JSON.stringify (JObject [("n", JArray [JBigInt 1])])
  = Throw (TypeError "Do not know how to serialize a BigInt").
Proof. reflexivity. Qed.

(** ** The head of the transcript *)

(** C4: whenever [generateMessages] builds a transcript, its first two
    messages are, in this order, a system message whose content holds the
    role text, the constraints text and the registry's action instructions
    (under their three headings, in that order), and a user message whose
    content is the "## TASK" heading followed by the run's instructions,
    verbatim.  This holds for every role, constraints, registry, instructions
    and step history. *)
Theorem generateMessages_head this completedSteps run messages :
  generateMessages this completedSteps run = Ok messages →
  ∃ first second rest,
    messages = first :: second :: rest ∧
    ChatMessage.role first = ChatMessage.system ∧
    ChatMessage.content first =
      "## ROLE" +:+ newline +:+ role this +:+ newline +:+ newline +:+
      "## CONSTRAINTS" +:+ newline +:+ constraints this +:+ ";" +:+ newline +:+ newline +:+
      "## AVAILABLE ACTIONS" +:+ newline +:+
      getAvailableActionInstructions (actionRegistry this) ∧
    ChatMessage.role second = ChatMessage.user ∧
    ChatMessage.content second = "## TASK" +:+ newline +:+ instructions run.
Proof.
  unfold generateMessages. intros H.
  apply forOf_pushStep_extends in H as [pushed ->].
  eexists _, _, pushed. repeat split; reflexivity.
Qed.

Lemma generateMessages_head_witness :
  let this := Example.generator (Example.answering "ok") ∅ in
  let completedSteps := [ActionStep "search" None (failed "timeout")] in
  let messages :=
    [ {| ChatMessage.role := ChatMessage.system; ChatMessage.content := systemPrompt this |};
      {| ChatMessage.role := ChatMessage.user;
         ChatMessage.content := "## TASK" +:+ newline +:+ "Find X" |};
      {| ChatMessage.role := ChatMessage.system;
         ChatMessage.content := "ERROR:" +:+ newline +:+ "timeout" |} ] in
  generateMessages this completedSteps Example.observed = Ok messages ∧
  ∃ first second rest,
    messages = first :: second :: rest ∧
    ChatMessage.role first = ChatMessage.system ∧
    ChatMessage.content first =
      "## ROLE" +:+ newline +:+ "Researcher" +:+ newline +:+ newline +:+
      "## CONSTRAINTS" +:+ newline +:+ "Be concise" +:+ ";" +:+ newline +:+ newline +:+
      "## AVAILABLE ACTIONS" +:+ newline +:+ "search: look something up" ∧
    ChatMessage.role second = ChatMessage.user ∧
    ChatMessage.content second = "## TASK" +:+ newline +:+ "Find X".
Proof.
  intros this completedSteps messages. split; [reflexivity|].
  apply (generateMessages_head this completedSteps Example.observed messages).
  reflexivity.
Defined.

(** ** What a step contributes *)

(** C5: a completed step in state [failed] with summary [S] and without
    [generatedText] contributes exactly one message, the system message
    with content "ERROR:\n" followed by [S]: the transcript after the step is
    the transcript of the steps before it with that one message appended, and
    the steps after it push onto that. *)
Theorem failed_step_contributes_error_message this run pre step post S before :
  stepState step = failed S →
  stepGeneratedText step = None →
  generateMessages this pre run = Ok before →
  generateMessages this (pre ++ [step]) run
  = Ok (before ++ [ {| ChatMessage.role := ChatMessage.system;
                      ChatMessage.content := "ERROR:" +:+ newline +:+ S |} ]) ∧
  generateMessages this (pre ++ step :: post) run
  = forOf (pushStep this) post
      (before ++ [ {| ChatMessage.role := ChatMessage.system;
                      ChatMessage.content := "ERROR:" +:+ newline +:+ S |} ]).
Proof.
  intros Hstate Htext Hpre.
  assert (Hpush : pushStep this before step
                  = Ok (before ++ [ {| ChatMessage.role := ChatMessage.system;
                                       ChatMessage.content := "ERROR:" +:+ newline +:+ S |} ])).
  { unfold pushStep, stateContent. by rewrite Htext, Hstate. }
  split.
  - by rewrite (generateMessages_snoc _ _ _ _ _ Hpre).
  - by rewrite (generateMessages_split _ _ _ _ _ _ Hpre), Hpush.
Qed.

Lemma failed_step_contributes_error_message_witness :
  let this := Example.generator (Example.answering "ok") ∅ in
  let pre := [ActionStep "search" None (succeeded JUndefined "nothing")] in
  let step := ActionStep "search" None (failed "timeout") in
  let before :=
    [ {| ChatMessage.role := ChatMessage.system; ChatMessage.content := systemPrompt this |};
      {| ChatMessage.role := ChatMessage.user;
         ChatMessage.content := "## TASK" +:+ newline +:+ "Find X" |} ] in
  generateMessages this (pre ++ [step]) Example.observed
  = Ok (before ++ [ {| ChatMessage.role := ChatMessage.system;
                      ChatMessage.content := "ERROR:" +:+ newline +:+ "timeout" |} ]).
Proof.
  intros this pre step before.
  apply (failed_step_contributes_error_message this Example.observed pre step [] "timeout" before);
    reflexivity.
Defined.

Lemma pushStep_content this messages step content :
  stateContent this step = Ok (Some content) →
  pushStep this messages step
  = Ok (messages ++ repeated step
          ++ [ {| ChatMessage.role := ChatMessage.system; ChatMessage.content := content |} ]).
Proof.
  unfold pushStep, repeated. intros ->. simpl.
  destruct (stepGeneratedText step); [by rewrite <- app_assoc | done].
Qed.

Lemma pushStep_throw this messages step e :
  stateContent this step = Throw e → pushStep this messages step = Throw e.
Proof. unfold pushStep. by intros ->. Qed.

(** C2, as the code has it: a completed step in state [succeeded] whose
    output is present and whose type has no registered formatter is rendered
    by [JSON.stringify] of the output alone; the summary is not part of it.
    When that gives a string, the step contributes the system message with
    this string as content (after the assistant message repeating its
    [generatedText], if it has one).  When it gives [undefined] there is no
    content and no system message, and when it throws, the error leaves
    [generateMessages]. *)
Theorem unformatted_step_contributes_stringified_output
    this run pre step output summary before :
  stepState step = succeeded output summary →
  isNullish output = false →
  getResultFormatter (resultFormatterRegistry this) (stepType step) = None →
  generateMessages this pre run = Ok before →
  match JSON.stringify output with
  | Ok (Some content) =>
      let rendered :=
        {| ChatMessage.role := ChatMessage.system; ChatMessage.content := content |} in
      generateMessages this (pre ++ [step]) run = Ok (before ++ repeated step ++ [rendered]) ∧
      ∀ post,
        generateMessages this (pre ++ step :: post) run
        = forOf (pushStep this) post (before ++ repeated step ++ [rendered])
  | Ok None =>
      generateMessages this (pre ++ [step]) run = Ok (before ++ repeated step) ∧
      ∀ post,
        generateMessages this (pre ++ step :: post) run
        = forOf (pushStep this) post (before ++ repeated step)
  | Throw e =>
      ∀ post, generateMessages this (pre ++ step :: post) run = Throw e
  end.
Proof.
  intros Hstate Hpresent Hnone Hpre.
  assert (Hcontent : stateContent this step = JSON.stringify output).
  { unfold stateContent. by rewrite Hstate, Hpresent, Hnone. }
  destruct (JSON.stringify output) as [[content|]|e].
  - apply (pushStep_content _ before) in Hcontent. split.
    + by rewrite (generateMessages_snoc _ _ _ _ _ Hpre).
    + intros post. by rewrite (generateMessages_split _ _ _ _ _ _ Hpre), Hcontent.
  - assert (Hpush : pushStep this before step = Ok (before ++ repeated step)).
    { unfold pushStep, repeated. rewrite Hcontent. simpl.
      destruct (stepGeneratedText step); [done|by rewrite app_nil_r]. }
    split.
    + by rewrite (generateMessages_snoc _ _ _ _ _ Hpre).
    + intros post. by rewrite (generateMessages_split _ _ _ _ _ _ Hpre), Hpush.
  - intros post. eapply generateMessages_throw; [done|]. by apply pushStep_throw.
Qed.

Lemma unformatted_step_contributes_stringified_output_witness :
  let this := Example.generator (Example.answering "ok") ∅ in
  let before :=
    [ {| ChatMessage.role := ChatMessage.system; ChatMessage.content := systemPrompt this |};
      {| ChatMessage.role := ChatMessage.user;
         ChatMessage.content := "## TASK" +:+ newline +:+ "Find X" |} ] in
  let hits := ActionStep "search" (Some "search") (succeeded (JArray [JInt 1; JInt 2]) "two hits") in
  let token := ActionStep "search" None (succeeded (JSymbol "id") "a symbol") in
  let count := ActionStep "search" None (succeeded (JBigInt 7) "a BigInt") in
  generateMessages this ([] ++ [hits]) Example.unobserved
  = Ok (before ++ repeated hits
          ++ [ {| ChatMessage.role := ChatMessage.system; ChatMessage.content := "[1,2]" |} ]) ∧
  generateMessages this ([] ++ [token]) Example.unobserved = Ok (before ++ repeated token) ∧
  generateMessages this ([] ++ count :: [hits]) Example.unobserved
  = Throw (TypeError "Do not know how to serialize a BigInt").
Proof.
  intros this before hits token count.
  pose proof (unformatted_step_contributes_stringified_output
                this Example.unobserved [] hits (JArray [JInt 1; JInt 2]) "two hits" before
                eq_refl eq_refl eq_refl eq_refl) as Hhits.
  pose proof (unformatted_step_contributes_stringified_output
                this Example.unobserved [] token (JSymbol "id") "a symbol" before
                eq_refl eq_refl eq_refl eq_refl) as Htoken.
  pose proof (unformatted_step_contributes_stringified_output
                this Example.unobserved [] count (JBigInt 7) "a BigInt" before
                eq_refl eq_refl eq_refl eq_refl) as Hcount.
  simpl in Hhits, Htoken, Hcount.
  split; [exact (proj1 Hhits)|]. split; [exact (proj1 Htoken)|exact (Hcount [hits])].
Defined.

(** C2, as the spec words it, fails: for the step below, succeeded with
    output [42] and summary "ok" and no formatter for its type, the message
    contributed is "42", not the serialization of [{summary, output}] (nor of
    the pair in the other order). *)
Lemma unformatted_step_is_not_summary_output_pair :
  let this := Example.generator (Example.answering "ok") ∅ in
  let step := ActionStep "search" None (succeeded (JInt 42) "ok") in
  let before :=
    [ {| ChatMessage.role := ChatMessage.system; ChatMessage.content := systemPrompt this |};
      {| ChatMessage.role := ChatMessage.user;
         ChatMessage.content := "## TASK" +:+ newline +:+ "Find X" |} ] in
  stepState step = succeeded (JInt 42) "ok" ∧
  isNullish (JInt 42) = false ∧
  getResultFormatter (resultFormatterRegistry this) (stepType step) = None ∧
  generateMessages this [] Example.unobserved = Ok before ∧
  generateMessages this [step] Example.unobserved
  = Ok (before ++ [ {| ChatMessage.role := ChatMessage.system; ChatMessage.content := "42" |} ]) ∧
  (∀ content,
     stringifySummaryOutput "ok" (JInt 42) = Ok (Some content) →
     generateMessages this [step] Example.unobserved
     ≠ Ok (before ++ [ {| ChatMessage.role := ChatMessage.system;
                          ChatMessage.content := content |} ])) ∧
  (∀ content,
     JSON.stringify (JObject [("output", JInt 42); ("summary", JString "ok")])
     = Ok (Some content) →
     generateMessages this [step] Example.unobserved
     ≠ Ok (before ++ [ {| ChatMessage.role := ChatMessage.system;
                          ChatMessage.content := content |} ])).
Proof.
  intros this step before. repeat split; try reflexivity.
  - intros content Hcontent. vm_compute in Hcontent. injection Hcontent as <-.
    vm_compute. discriminate.
  - intros content Hcontent. vm_compute in Hcontent. injection Hcontent as <-.
    vm_compute. discriminate.
Qed.

(** A throw while the transcript is built leaves [generateNextStep] before
    any hook or collaborator is reached: the trace is untouched and no step
    comes out. *)
Lemma generateNextStep_transcript_throw this completedSteps run e trace :
  generateMessages this completedSteps run = Throw e →
  generateNextStep this completedSteps run trace = (Throw e, trace).
Proof.
  intros H. unfold generateNextStep, mbind, Async_bind, lift. by rewrite H.
Qed.

(** C7: a completed step in state [succeeded] whose output is present and
    whose type has a registered formatter.  The pair [{output, summary}] goes
    through the formatter's schema first.  When it validates, the message
    contributed is the system message holding [formatResult] of the validated
    pair.  When it does not, the ZodError leaves [generateMessages] whatever
    steps follow, nothing is rendered, and [generateNextStep] throws the same
    error with no hook invoked, no model call and no error step. *)
Theorem formatted_step_is_validated_then_rendered
    this run pre step output summary resultFormatter before :
  stepState step = succeeded output summary →
  isNullish output = false →
  getResultFormatter (resultFormatterRegistry this) (stepType step) = Some resultFormatter →
  generateMessages this pre run = Ok before →
  match safeParse (outputSchema resultFormatter) output with
  | inr parsed =>
      let rendered :=
        {| ChatMessage.role := ChatMessage.system;
           ChatMessage.content :=
             formatResult resultFormatter {| summary := summary; output := parsed |} |} in
      generateMessages this (pre ++ [step]) run = Ok (before ++ repeated step ++ [rendered]) ∧
      ∀ post,
        generateMessages this (pre ++ step :: post) run
        = forOf (pushStep this) post (before ++ repeated step ++ [rendered])
  | inl issues =>
      ∀ post,
        generateMessages this (pre ++ step :: post) run = Throw (ZodError issues) ∧
        ∀ trace,
          generateNextStep this (pre ++ step :: post) run trace = (Throw (ZodError issues), trace)
  end.
Proof.
  intros Hstate Hpresent Hsome Hpre.
  assert (Hcontent : stateContent this step
                     = content ← formatOutput resultFormatter (succeeded output summary);
                       mret (Some content)).
  { unfold stateContent. by rewrite Hstate, Hpresent, Hsome. }
  unfold formatOutput, schema_parse in Hcontent.
  destruct (safeParse (outputSchema resultFormatter) output) as [issues|parsed];
    simpl in Hcontent.
  - intros post.
    assert (Hthrow : generateMessages this (pre ++ step :: post) run = Throw (ZodError issues)).
    { eapply generateMessages_throw; [done|]. by apply pushStep_throw. }
    split; [done|]. intros trace. by apply generateNextStep_transcript_throw.
  - apply (pushStep_content _ before) in Hcontent. split.
    + by rewrite (generateMessages_snoc _ _ _ _ _ Hpre).
    + intros post. by rewrite (generateMessages_split _ _ _ _ _ _ Hpre), Hcontent.
Qed.

Lemma formatted_step_is_validated_then_rendered_witness :
  let this := Example.generator (Example.answering "ok") {[ "search" := Example.hitsFormatter ]} in
  let before :=
    [ {| ChatMessage.role := ChatMessage.system; ChatMessage.content := systemPrompt this |};
      {| ChatMessage.role := ChatMessage.user;
         ChatMessage.content := "## TASK" +:+ newline +:+ "Find X" |} ] in
  let good := ActionStep "search" None (succeeded (JArray [JInt 1; JInt 2]) "found") in
  let bad := ActionStep "search" None (succeeded (JString "oops") "found") in
  generateMessages this ([] ++ [good]) Example.observed
  = Ok (before ++ repeated good
          ++ [ {| ChatMessage.role := ChatMessage.system;
                  ChatMessage.content := "found: 2 hits" |} ]) ∧
  generateMessages this ([] ++ bad :: [good]) Example.observed
  = Throw (ZodError "output: expected array") ∧
  generateNextStep this ([] ++ bad :: [good]) Example.observed []
  = (Throw (ZodError "output: expected array"), []).
Proof.
  intros this before good bad.
  pose proof (formatted_step_is_validated_then_rendered
                this Example.observed [] good (JArray [JInt 1; JInt 2]) "found"
                Example.hitsFormatter before eq_refl eq_refl eq_refl eq_refl) as Hgood.
  pose proof (formatted_step_is_validated_then_rendered
                this Example.observed [] bad (JString "oops") "found"
                Example.hitsFormatter before eq_refl eq_refl eq_refl eq_refl) as Hbad.
  simpl in Hgood, Hbad.
  destruct Hgood as [Hgood _]. destruct (Hbad [good]) as [Hbad1 Hbad2].
  split; [exact Hgood|]. split; [exact Hbad1|exact (Hbad2 [])].
Defined.

(** ** One call of generateNextStep *)

(** The call, once the transcript is built, the model has answered and the
    answer has been parsed: the step that comes out and the events between the
    parse and the second hook. *)
Lemma generateNextStep_parsed this completedSteps run messages generatedText actionParameters trace :
  generateMessages this completedSteps run = Ok messages →
  generateText (textGenerator this) messages run = Ok generatedText →
  format_parse (actionRegistry this) generatedText = Ok actionParameters →
  ∃ step dispatch,
    generateNextStep this completedSteps run trace
    = (Ok step,
       trace ++ hook run (OnStepGenerationStarted run messages)
             ++ [GenerateText messages run; Parse generatedText]
             ++ dispatch
             ++ hook run (OnStepGenerationFinished run generatedText step)) ∧
    match action actionParameters with
    | None =>
        step = NoopStep "thought" generatedText (_freeText actionParameters) ∧ dispatch = []
    | Some id =>
        match getAction (actionRegistry this) id with
        | Throw error => step = ErrorStep generatedText error ∧ dispatch = [GetAction id]
        | Ok handler =>
            dispatch = [GetAction id; CreateStep generatedText actionParameters] ∧
            match createStep handler generatedText actionParameters with
            | Ok created => step = created
            | Throw error => step = ErrorStep generatedText error
            end
        end
    end.
Proof.
  intros Hm Ht Hp.
  unfold generateNextStep, hook, notify, tryCatch, call, lift, mbind, mret,
    Async_bind, Async_ret.
  rewrite Hm.
  destruct (observer run) as [o|]; rewrite Ht, Hp;
    destruct (action actionParameters) as [id|];
    try destruct (getAction (actionRegistry this) id) as [handler|error];
    try destruct (createStep handler generatedText actionParameters) as [created|error];
    eexists _, _; (split; [|eauto]); f_equal;
    rewrite <- ?app_assoc; simpl; rewrite ?app_nil_r; reflexivity.
Qed.

(** C6: when the parser returns a record without an action identifier, the
    call returns the thought step [new NoopStep({type: "thought",
    generatedText, summary: _freeText})]: its generatedText is the raw model
    text and its summary the parser's free text. *)
Theorem no_action_gives_thought_step
    this completedSteps run messages generatedText actionParameters trace :
  generateMessages this completedSteps run = Ok messages →
  generateText (textGenerator this) messages run = Ok generatedText →
  format_parse (actionRegistry this) generatedText = Ok actionParameters →
  action actionParameters = None →
  (generateNextStep this completedSteps run trace).1
  = Ok (NoopStep "thought" generatedText (_freeText actionParameters)).
Proof.
  intros Hm Ht Hp Hnone.
  destruct (generateNextStep_parsed _ _ _ _ _ _ trace Hm Ht Hp) as (step & dispatch & -> & Hstep).
  rewrite Hnone in Hstep. by destruct Hstep as [-> _].
Qed.

(** The spec's scenario: the model answers with free text only. *)
Lemma no_action_gives_thought_step_witness :
  (generateNextStep
     (Example.generator (Example.answering "I should search for X first.") ∅)
     [] Example.unobserved []).1
  = Ok (NoopStep "thought" "I should search for X first." "I should search for X first.").
Proof.
  eapply (no_action_gives_thought_step
           (Example.generator (Example.answering "I should search for X first.") ∅)
           [] Example.unobserved _ "I should search for X first."
           {| action := None; _freeText := "I should search for X first."; fields := [] |} []);
    reflexivity.
Defined.

(** C1: when the parser returns an action identifier and either the registry
    does not know it ([getAction] throws) or the handler's [createStep]
    throws or rejects, the call returns [new ErrorStep({generatedText,
    error})]: an error step with the raw model text and the failure that was
    caught.  The call itself does not throw. *)
Theorem failed_dispatch_gives_error_step
    this completedSteps run messages generatedText actionParameters id error trace :
  generateMessages this completedSteps run = Ok messages →
  generateText (textGenerator this) messages run = Ok generatedText →
  format_parse (actionRegistry this) generatedText = Ok actionParameters →
  action actionParameters = Some id →
  getAction (actionRegistry this) id = Throw error ∨
  (∃ handler,
     getAction (actionRegistry this) id = Ok handler ∧
     createStep handler generatedText actionParameters = Throw error) →
  (generateNextStep this completedSteps run trace).1 = Ok (ErrorStep generatedText error).
Proof.
  intros Hm Ht Hp Hid Hfail.
  destruct (generateNextStep_parsed _ _ _ _ _ _ trace Hm Ht Hp) as (step & dispatch & -> & Hstep).
  rewrite Hid in Hstep. simpl.
  destruct Hfail as [Hlookup|(handler & Hlookup & Hcreate)]; rewrite Hlookup in Hstep.
  - by destruct Hstep as [-> _].
  - destruct Hstep as [_ Hstep]. rewrite Hcreate in Hstep. by rewrite Hstep.
Qed.

Lemma failed_dispatch_gives_error_step_witness :
  (generateNextStep (Example.generator (Example.answering "fly") ∅)
     [] Example.observed []).1
  = Ok (ErrorStep "fly" (Error "unknown action fly")) ∧
  (generateNextStep (Example.generator (Example.answering "crash") ∅)
     [] Example.observed []).1
  = Ok (ErrorStep "crash" (Error "quota exceeded")).
Proof.
  split.
  - eapply (failed_dispatch_gives_error_step
             (Example.generator (Example.answering "fly") ∅) [] Example.observed _ "fly"
             {| action := Some "fly"; _freeText := ""; fields := [] |} "fly"
             (Error "unknown action fly") []);
      try reflexivity.
    left. reflexivity.
  - eapply (failed_dispatch_gives_error_step
             (Example.generator (Example.answering "crash") ∅) [] Example.observed _ "crash"
             {| action := Some "crash"; _freeText := ""; fields := [] |} "crash"
             (Error "quota exceeded") []);
      try reflexivity.
    right. exists Example.failingAction. split; reflexivity.
Defined.

(** ** The observer hooks *)

Lemma invocations_app which (t1 t2 : list Event) :
  invocations which (t1 ++ t2) = invocations which t1 + invocations which t2.
Proof. unfold invocations. by rewrite List.filter_app, length_app. Qed.

(** C3, as the code has it.  On a run with an observer, once the transcript
    is built: [onStepGenerationStarted] is invoked, then the text generator,
    and the first hook is not invoked again.  When moreover the text
    generator resolves and the parser returns, a step comes out (an error
    step included), the events after the parse are the action lookup and
    step creation only, and the last event of the call is the one invocation
    of [onStepGenerationFinished], with the raw text and the very step the
    call returns. *)
Theorem hooks_invoked_once_around_generation this completedSteps run o messages trace :
  observer run = Some o →
  generateMessages this completedSteps run = Ok messages →
  (∃ rest,
     (generateNextStep this completedSteps run trace).2
     = trace ++ OnStepGenerationStarted run messages :: GenerateText messages run :: rest ∧
     invocations isStarted rest = 0 ∧
     invocations isGenerateText rest = 0) ∧
  (∀ generatedText actionParameters,
     generateText (textGenerator this) messages run = Ok generatedText →
     format_parse (actionRegistry this) generatedText = Ok actionParameters →
     ∃ step dispatch,
       generateNextStep this completedSteps run trace
       = (Ok step,
          trace ++ [OnStepGenerationStarted run messages;
                    GenerateText messages run;
                    Parse generatedText]
                ++ dispatch
                ++ [OnStepGenerationFinished run generatedText step]) ∧
       invocations isStarted dispatch = 0 ∧
       invocations isGenerateText dispatch = 0 ∧
       invocations isFinished dispatch = 0 ∧
       invocations isFinished
         ([OnStepGenerationStarted run messages; GenerateText messages run; Parse generatedText]
            ++ dispatch ++ [OnStepGenerationFinished run generatedText step]) = 1).
Proof.
  intros Ho Hm.
  assert (Hparsed : ∀ generatedText actionParameters,
    generateText (textGenerator this) messages run = Ok generatedText →
    format_parse (actionRegistry this) generatedText = Ok actionParameters →
    ∃ step dispatch,
      generateNextStep this completedSteps run trace
      = (Ok step,
         trace ++ [OnStepGenerationStarted run messages;
                   GenerateText messages run;
                   Parse generatedText]
               ++ dispatch
               ++ [OnStepGenerationFinished run generatedText step]) ∧
      invocations isStarted dispatch = 0 ∧
      invocations isGenerateText dispatch = 0 ∧
      invocations isFinished dispatch = 0).
  { intros generatedText actionParameters Ht Hp.
    destruct (generateNextStep_parsed _ _ _ _ _ _ trace Hm Ht Hp)
      as (step & dispatch & Hcall & Hstep).
    unfold hook in Hcall. rewrite Ho in Hcall.
    exists step, dispatch. split; [exact Hcall|].
    destruct (action actionParameters) as [id|].
    - destruct (getAction (actionRegistry this) id) as [handler|error].
      + destruct Hstep as [-> _]. done.
      + destruct Hstep as [_ ->]. done.
    - destruct Hstep as [_ ->]. done. }
  split.
  - destruct (generateText (textGenerator this) messages run) as [generatedText|e] eqn:Ht.
    + destruct (format_parse (actionRegistry this) generatedText) as [actionParameters|e] eqn:Hp.
      * destruct (Hparsed _ _ eq_refl Hp) as (step & dispatch & -> & Hs & Hg & Hf).
        exists ([Parse generatedText] ++ dispatch
                  ++ [OnStepGenerationFinished run generatedText step]).
        split; [reflexivity|].
        rewrite !invocations_app, Hs, Hg. done.
      * exists [Parse generatedText].
        unfold generateNextStep, notify, call, lift, mbind, Async_bind.
        rewrite Hm, Ho, Ht, Hp. simpl. by rewrite <- !app_assoc.
    + exists [].
      unfold generateNextStep, notify, call, lift, mbind, Async_bind.
      rewrite Hm, Ho, Ht. simpl. by rewrite <- !app_assoc.
  - intros generatedText actionParameters Ht Hp.
    destruct (Hparsed _ _ Ht Hp) as (step & dispatch & Hcall & Hs & Hg & Hf).
    exists step, dispatch. repeat split; try done.
    change [OnStepGenerationStarted run messages; GenerateText messages run; Parse generatedText]
      with ([OnStepGenerationStarted run messages; GenerateText messages run]
              ++ [Parse generatedText]).
    rewrite !invocations_app, Hf. done.
Qed.

Lemma hooks_invoked_once_around_generation_witness :
  let this := Example.generator (Example.answering "fly") ∅ in
  let messages :=
    [ {| ChatMessage.role := ChatMessage.system; ChatMessage.content := systemPrompt this |};
      {| ChatMessage.role := ChatMessage.user;
         ChatMessage.content := "## TASK" +:+ newline +:+ "Find X" |} ] in
  ∃ step dispatch,
    generateNextStep this [] Example.observed []
    = (Ok step,
       [] ++ [OnStepGenerationStarted Example.observed messages;
              GenerateText messages Example.observed;
              Parse "fly"]
          ++ dispatch
          ++ [OnStepGenerationFinished Example.observed "fly" step]) ∧
    invocations isStarted dispatch = 0 ∧
    invocations isGenerateText dispatch = 0 ∧
    invocations isFinished dispatch = 0 ∧
    invocations isFinished
      ([OnStepGenerationStarted Example.observed messages;
        GenerateText messages Example.observed; Parse "fly"]
         ++ dispatch ++ [OnStepGenerationFinished Example.observed "fly" step]) = 1.
Proof.
  intros this messages.
  apply (proj2 (hooks_invoked_once_around_generation
                  this [] Example.observed {| observerId := 1 |} messages []
                  eq_refl eq_refl)
           "fly" {| action := Some "fly"; _freeText := ""; fields := [] |});
    reflexivity.
Defined.

(** C3, as the spec words it, fails: a call can reach the model call and still
    never invoke [onStepGenerationFinished].  With an observer attached and a
    text generator that rejects, the call throws after the first hook and
    the model call; the same happens when the parser throws on the answer. *)
Lemma finished_hook_skipped_when_generation_fails :
  let rejected :=
    generateNextStep (Example.generator Example.unreachable ∅) [] Example.observed [] in
  let unparsed :=
    generateNextStep (Example.generator (Example.answering "") ∅) [] Example.observed [] in
  observer Example.observed = Some {| observerId := 1 |} ∧
  rejected.1 = Throw (Error "network down") ∧
  invocations isStarted rejected.2 = 1 ∧
  invocations isGenerateText rejected.2 = 1 ∧
  invocations isFinished rejected.2 = 0 ∧
  invocations isFinished rejected.2 ≠ 1 ∧
  unparsed.1 = Throw (Error "no text") ∧
  invocations isGenerateText unparsed.2 = 1 ∧
  invocations isFinished unparsed.2 = 0.
Proof. repeat split; try reflexivity. vm_compute. discriminate. Qed.

(** ** Construction *)

(** C8: the constructor throws as soon as one of [role], [constraints],
    [actionRegistry], [textGenerator] is [null] or [undefined] (the first
    missing one, in this order, names the error), so no instance exists on
    which [generateNextStep] could be called; with the four present and
    [resultFormatterRegistry] left out it returns an instance whose formatter
    registry is empty. *)
Theorem constructor_requires_its_collaborators
    (role constraints : Arg string) (actionRegistry : Arg ActionRegistry)
    (textGenerator : Arg ChatTextGenerator)
    (formatterRegistry : option ResultFormatterRegistry) :
  isNull role = true ∨ isNull constraints = true ∨
  isNull actionRegistry = true ∨ isNull textGenerator = true →
  (∃ e, constructor role constraints actionRegistry textGenerator formatterRegistry
        = Throw e ∧ name e = "Error") ∧
  (isNull role = true →
   constructor role constraints actionRegistry textGenerator formatterRegistry
   = Throw (Error "role is required")) ∧
  (isNull role = false → isNull constraints = true →
   constructor role constraints actionRegistry textGenerator formatterRegistry
   = Throw (Error "constraints is required")) ∧
  (isNull role = false → isNull constraints = false → isNull actionRegistry = true →
   constructor role constraints actionRegistry textGenerator formatterRegistry
   = Throw (Error "actionRegistry is required")) ∧
  (isNull role = false → isNull constraints = false → isNull actionRegistry = false →
   isNull textGenerator = true →
   constructor role constraints actionRegistry textGenerator formatterRegistry
   = Throw (Error "textGenerator is required")) ∧
  (∀ r c a t,
     ∃ this,
       constructor (val r) (val c) (val a) (val t) None = Ok this ∧
       formatters (resultFormatterRegistry this) = ∅ ∧
       ∀ type, getResultFormatter (resultFormatterRegistry this) type = None).
Proof.
  intros Hmissing. split; [|repeat split].
  - destruct role, constraints, actionRegistry, textGenerator; simpl in *;
      try (eexists; split; reflexivity).
    destruct Hmissing as [?|[?|[?|?]]]; discriminate.
  - by destruct role.
  - by destruct role, constraints.
  - by destruct role, constraints, actionRegistry.
  - by destruct role, constraints, actionRegistry, textGenerator.
  - intros r c a t. eexists. split; [reflexivity|]. split; [reflexivity|].
    intros type. unfold getResultFormatter. simpl. apply lookup_empty.
Qed.

Lemma constructor_requires_its_collaborators_witness :
  constructor (val "Researcher") null (val Example.registry) undefined None
  = Throw (Error "constraints is required").
Proof.
  apply (constructor_requires_its_collaborators
           (val "Researcher") null (val Example.registry) undefined None);
    [right; left; reflexivity | reflexivity | reflexivity].
Defined.

(** C9: the construction check is [== null] only.  Whatever strings [role]
    and [constraints] are, the empty string and a blank one included, and
    whatever registries and generator are passed, the constructor returns the
    instance holding exactly them; it returns an instance exactly when none
    of the four required arguments is [null] or [undefined]. *)
Theorem constructor_accepts_empty_strings
    (role constraints : string) (actionRegistry : ActionRegistry)
    (textGenerator : ChatTextGenerator)
    (resultFormatterRegistry : option ResultFormatterRegistry) :
  constructor (val role) (val constraints) (val actionRegistry) (val textGenerator)
    resultFormatterRegistry
  = Ok {| role := role;
          constraints := constraints;
          actionRegistry := actionRegistry;
          textGenerator := textGenerator;
          resultFormatterRegistry :=
            default new_ResultFormatterRegistry resultFormatterRegistry |} ∧
  constructor (val "") (val "") (val actionRegistry) (val textGenerator)
    resultFormatterRegistry
  = Ok {| role := "";
          constraints := "";
          actionRegistry := actionRegistry;
          textGenerator := textGenerator;
          resultFormatterRegistry :=
            default new_ResultFormatterRegistry resultFormatterRegistry |} ∧
  constructor (val "  ") (val " ") (val actionRegistry) (val textGenerator)
    resultFormatterRegistry
  = Ok {| role := "  ";
          constraints := " ";
          actionRegistry := actionRegistry;
          textGenerator := textGenerator;
          resultFormatterRegistry :=
            default new_ResultFormatterRegistry resultFormatterRegistry |} ∧
  ∀ (r c : Arg string) (a : Arg ActionRegistry) (t : Arg ChatTextGenerator),
    (∃ this, constructor r c a t resultFormatterRegistry = Ok this) ↔
    isNull r = false ∧ isNull c = false ∧ isNull a = false ∧ isNull t = false.
Proof.
  split; [reflexivity|]. split; [reflexivity|]. split; [reflexivity|].
  intros r c a t. split.
  - intros [this Hthis]. by destruct r, c, a, t.
  - intros (Hr & Hc & Ha & Ht). destruct r, c, a, t; try discriminate. eauto.
Qed.

(** ** The transcript construction and the store *)

Lemma fresh_unused (h : gmap Store.loc Store.Obj) : h !! fresh (dom h) = None.
Proof. apply not_elem_of_dom, is_fresh. Qed.

(** Adding an object at an unused reference keeps every object there was. *)
Lemma insert_unused_keeps (h : gmap Store.loc Store.Obj) l o :
  h !! l = None → ∀ l' o', h !! l' = Some o' → <[l := o]> h !! l' = Some o'.
Proof.
  intros Hl l' o' Hl'. rewrite lookup_insert_ne; [done|]. congruence.
Qed.

Lemma push_own (h : gmap Store.loc Store.Obj) messages ms m :
  Store.push messages m (<[messages := Store.MessageArray ms]> h)
  = (Ok tt, <[messages := Store.MessageArray (ms ++ [m])]> h).
Proof. unfold Store.push. by rewrite lookup_insert_eq, insert_insert_eq. Qed.

(** The loop body writes the array [messages] and nothing else, whatever
    reference it is given as a step. *)
Lemma store_pushStep_frame this messages stepRef (h : gmap Store.loc Store.Obj) ms :
  ∃ result ms',
    Store.pushStep this messages stepRef (<[messages := Store.MessageArray ms]> h)
    = (result, <[messages := Store.MessageArray ms']> h).
Proof.
  unfold Store.pushStep, Store.readStep, Store.pure, mbind, Store.Mut_bind, mret, Store.Mut_ret.
  destruct (<[messages := Store.MessageArray ms]> h !! stepRef) as [[| step | |]|]; eauto.
  destruct (stepGeneratedText step) as [text|]; rewrite ?push_own;
    destruct (stateContent this step) as [[content|]|e]; rewrite ?push_own; eauto.
Qed.

Lemma store_forEach_frame this messages steps (h : gmap Store.loc Store.Obj) ms :
  ∃ result ms',
    Store.forEach (Store.pushStep this messages) steps (<[messages := Store.MessageArray ms]> h)
    = (result, <[messages := Store.MessageArray ms']> h).
Proof.
  revert ms. induction steps as [|stepRef steps IH]; intros ms; simpl.
  - by exists (Ok tt), ms.
  - unfold mbind, Store.Mut_bind.
    destruct (store_pushStep_frame this messages stepRef h ms) as ([[]|e] & ms' & ->); eauto.
Qed.

(** On a store that holds the steps, the loop body and the loop do on the
    array what the value-level ones do on the list. *)
Lemma store_pushStep_refines this messages stepRef step (h : gmap Store.loc Store.Obj) ms :
  h !! messages = None →
  h !! stepRef = Some (Store.StepObject step) →
  ∃ partial,
    Store.pushStep this messages stepRef (<[messages := Store.MessageArray ms]> h)
    = match pushStep this ms step with
      | Ok ms' => (Ok tt, <[messages := Store.MessageArray ms']> h)
      | Throw e => (Throw e, <[messages := Store.MessageArray partial]> h)
      end.
Proof.
  intros Hfresh Hstep.
  assert (Hread : <[messages := Store.MessageArray ms]> h !! stepRef
                  = Some (Store.StepObject step)).
  { rewrite lookup_insert_ne; [done|]. congruence. }
  unfold Store.pushStep, Store.readStep, Store.pure, pushStep,
    mbind, Store.Mut_bind, Outcome_bind, mret, Store.Mut_ret.
  rewrite Hread.
  destruct (stepGeneratedText step) as [text|]; rewrite ?push_own;
    destruct (stateContent this step) as [[content|]|e]; rewrite ?push_own; eauto.
Qed.

Lemma store_forEach_refines this messages elems steps (h : gmap Store.loc Store.Obj) ms :
  h !! messages = None →
  Store.holdsSteps h elems steps →
  ∃ partial,
    Store.forEach (Store.pushStep this messages) elems (<[messages := Store.MessageArray ms]> h)
    = match forOf (pushStep this) steps ms with
      | Ok ms' => (Ok tt, <[messages := Store.MessageArray ms']> h)
      | Throw e => (Throw e, <[messages := Store.MessageArray partial]> h)
      end.
Proof.
  intros Hfresh Hsteps. revert ms.
  induction Hsteps as [|stepRef step elems steps Hstep _ IH]; intros ms; simpl.
  - by exists ms.
  - destruct (store_pushStep_refines this messages stepRef step h ms Hfresh Hstep)
      as [partial Hbody].
    unfold mbind at 1. unfold Store.Mut_bind. rewrite Hbody.
    destruct (pushStep this ms step) as [ms'|e]; simpl; [apply IH|eauto].
Qed.

(** The store-level function refines the value-level one: on a store holding
    the run and the completed steps it allocates one array, at an unused
    reference, and fills it with the transcript [generateMessages] gives;
    when that throws, the same error is thrown. *)
Lemma store_generateMessages_refines this completedSteps run
    (h : gmap Store.loc Store.Obj) elems steps runObject :
  h !! run = Some (Store.RunObject runObject) →
  h !! completedSteps = Some (Store.StepArray elems) →
  Store.holdsSteps h elems steps →
  ∃ partial,
    Store.generateMessages this completedSteps run h
    = match generateMessages this steps runObject with
      | Ok ms => (Ok (fresh (dom h)), <[fresh (dom h) := Store.MessageArray ms]> h)
      | Throw e => (Throw e, <[fresh (dom h) := Store.MessageArray partial]> h)
      end.
Proof.
  intros Hrun Harray Hsteps.
  pose proof (fresh_unused h) as Hfresh.
  unfold Store.generateMessages, Store.readRun, Store.alloc, Store.readArray, generateMessages,
    mbind, Store.Mut_bind.
  rewrite Hrun. simpl.
  rewrite lookup_insert_ne by congruence. rewrite Harray.
  match goal with
  | |- context [Store.forEach _ _ (<[_ := Store.MessageArray ?ms]> _)] =>
      destruct (store_forEach_refines this (fresh (dom h)) elems steps h ms Hfresh Hsteps)
        as [partial ->]
  end.
  destruct (forOf (pushStep this) steps _) as [ms'|e]; eauto.
Qed.

(** C10: [generateMessages] is a reader of its inputs.  Run on any store, it
    leaves every object of the store as it was, so the [completedSteps]
    array, each step object and the run keep the fields they had; when it
    returns, the reference it returns was unused before the call and the
    store after the call is the store before it plus that one new message
    array.  On a store that holds the run and the steps, the new array holds
    the transcript. *)
Theorem generateMessages_reads_inputs_builds_fresh_array
    this completedSteps run (h : gmap Store.loc Store.Obj) :
  let result := (Store.generateMessages this completedSteps run h).1 in
  let h' := (Store.generateMessages this completedSteps run h).2 in
  (∀ l o, h !! l = Some o → h' !! l = Some o) ∧
  (∀ messages,
     result = Ok messages →
     h !! messages = None ∧ ∃ ms, h' = <[messages := Store.MessageArray ms]> h) ∧
  (∀ elems steps runObject ms,
     h !! run = Some (Store.RunObject runObject) →
     h !! completedSteps = Some (Store.StepArray elems) →
     Store.holdsSteps h elems steps →
     generateMessages this steps runObject = Ok ms →
     ∃ messages,
       result = Ok messages ∧ h !! messages = None ∧
       h' = <[messages := Store.MessageArray ms]> h).
Proof.
  intros result h'. subst result h'.
  pose proof (fresh_unused h) as Hfresh.
  assert (Hshape :
    Store.generateMessages this completedSteps run h = (Throw Store.TypeError, h) ∨
    ∃ r ms, Store.generateMessages this completedSteps run h
            = (r, <[fresh (dom h) := Store.MessageArray ms]> h) ∧
            (∀ messages, r = Ok messages → messages = fresh (dom h))).
  { unfold Store.generateMessages, Store.readRun, Store.alloc, Store.readArray,
      mbind, Store.Mut_bind.
    destruct (h !! run) as [[| | runObject |]|]; try (by left). right. simpl.
    destruct (<[fresh (dom h) := _]> h !! completedSteps) as [[elems | | |]|];
      try (eexists _, _; split; [reflexivity|]; intros ? [=]).
    match goal with
    | |- context [Store.forEach _ _ (<[_ := Store.MessageArray ?ms]> _)] =>
        destruct (store_forEach_frame this (fresh (dom h)) elems h ms)
          as ([[]|e] & ms' & ->)
    end.
    - eexists _, _. split; [reflexivity|]. by intros ? [= <-].
    - eexists _, _. split; [reflexivity|]. intros ? [=]. }
  split; [|split].
  - destruct Hshape as [->|(r & ms & -> & _)]; simpl; [done|].
    by apply insert_unused_keeps.
  - intros messages Hresult.
    destruct Hshape as [Heq|(r & ms & Heq & Hr)]; rewrite Heq in Hresult |- *; simpl in *.
    + discriminate.
    + rewrite (Hr _ Hresult). eauto.
  - intros elems steps runObject ms Hrun Harray Hsteps Hvalue.
    destruct (store_generateMessages_refines this completedSteps run h elems steps runObject
                Hrun Harray Hsteps) as [partial Heq].
    rewrite Hvalue in Heq. rewrite Heq. simpl. eauto.
Qed.

Lemma generateMessages_reads_inputs_builds_fresh_array_witness :
  let this := Example.generator (Example.answering "ok") ∅ in
  let step := ActionStep "search" (Some "search") (failed "timeout") in
  let h : gmap Store.loc Store.Obj :=
    <[1%positive := Store.RunObject Example.observed]>
      (<[2%positive := Store.StepArray [3%positive]]>
         (<[3%positive := Store.StepObject step]> ∅)) in
  let h' := (Store.generateMessages this 2%positive 1%positive h).2 in
  h' !! 1%positive = Some (Store.RunObject Example.observed) ∧
  h' !! 2%positive = Some (Store.StepArray [3%positive]) ∧
  h' !! 3%positive = Some (Store.StepObject step) ∧
  ∃ messages,
    (Store.generateMessages this 2%positive 1%positive h).1 = Ok messages ∧
    h !! messages = None ∧
    h' = <[messages := Store.MessageArray
             [ {| ChatMessage.role := ChatMessage.system;
                  ChatMessage.content := systemPrompt this |};
               {| ChatMessage.role := ChatMessage.user;
                  ChatMessage.content := "## TASK" +:+ newline +:+ "Find X" |};
               {| ChatMessage.role := ChatMessage.assistant;
                  ChatMessage.content := "search" |};
               {| ChatMessage.role := ChatMessage.system;
                  ChatMessage.content := "ERROR:" +:+ newline +:+ "timeout" |} ]]> h.
Proof.
  intros this step h h'.
  destruct (generateMessages_reads_inputs_builds_fresh_array this 2%positive 1%positive h)
    as (Hkept & _ & Hbuilt).
  split; [apply Hkept; reflexivity|].
  split; [apply Hkept; reflexivity|].
  split; [apply Hkept; reflexivity|].
  apply (Hbuilt [3%positive] [step] Example.observed); try reflexivity.
  repeat constructor.
Defined.

(** * Further properties of the transcript *)

(** X1: a completed step in state [succeeded] whose output is [null] or
    [undefined] contributes no system message, whether or not a formatter is
    registered for its type: the transcript only gains the assistant message
    repeating its [generatedText], if it has one, and no validation runs. *)
Theorem absent_output_contributes_no_system_message
    this run pre step output summary before :
  stepState step = succeeded output summary →
  isNullish output = true →
  generateMessages this pre run = Ok before →
  generateMessages this (pre ++ [step]) run = Ok (before ++ repeated step) ∧
  ∀ post,
    generateMessages this (pre ++ step :: post) run
    = forOf (pushStep this) post (before ++ repeated step).
Proof.
  intros Hstate Habsent Hpre.
  assert (Hpush : pushStep this before step = Ok (before ++ repeated step)).
  { unfold pushStep, stateContent, repeated. rewrite Hstate, Habsent. simpl.
    destruct (stepGeneratedText step); [done|by rewrite app_nil_r]. }
  split.
  - by rewrite (generateMessages_snoc _ _ _ _ _ Hpre).
  - intros post. by rewrite (generateMessages_split _ _ _ _ _ _ Hpre), Hpush.
Qed.

Lemma absent_output_contributes_no_system_message_witness :
  let this := Example.generator (Example.answering "ok") {[ "search" := Example.hitsFormatter ]} in
  let step := ActionStep "search" (Some "search") (succeeded JNull "nothing found") in
  let before :=
    [ {| ChatMessage.role := ChatMessage.system; ChatMessage.content := systemPrompt this |};
      {| ChatMessage.role := ChatMessage.user;
         ChatMessage.content := "## TASK" +:+ newline +:+ "Find X" |} ] in
  generateMessages this ([] ++ [step]) Example.observed
  = Ok (before ++ [ {| ChatMessage.role := ChatMessage.assistant;
                      ChatMessage.content := "search" |} ]).
Proof.
  intros this step before.
  apply (absent_output_contributes_no_system_message
           this Example.observed [] step JNull "nothing found" before);
    reflexivity.
Defined.

(** X2: a completed step in state [failed] is rendered without looking at the
    formatter registry: whatever formatters are registered, it contributes
    the assistant message repeating its [generatedText] (if present) and then
    the "ERROR:\n" system message, in this order, and never makes the
    transcript construction throw. *)
Theorem failed_step_contributes_text_then_error this run pre step S before :
  stepState step = failed S →
  generateMessages this pre run = Ok before →
  generateMessages this (pre ++ [step]) run
  = Ok (before ++ repeated step
          ++ [ {| ChatMessage.role := ChatMessage.system;
                  ChatMessage.content := "ERROR:" +:+ newline +:+ S |} ]).
Proof.
  intros Hstate Hpre. rewrite (generateMessages_snoc _ _ _ _ _ Hpre).
  apply pushStep_content. unfold stateContent. by rewrite Hstate.
Qed.

Lemma failed_step_contributes_text_then_error_witness :
  let this := Example.generator (Example.answering "ok") {[ "search" := Example.hitsFormatter ]} in
  let step := ActionStep "search" (Some "search") (failed "timeout") in
  let before :=
    [ {| ChatMessage.role := ChatMessage.system; ChatMessage.content := systemPrompt this |};
      {| ChatMessage.role := ChatMessage.user;
         ChatMessage.content := "## TASK" +:+ newline +:+ "Find X" |} ] in
  generateMessages this ([] ++ [step]) Example.observed
  = Ok (before ++ [ {| ChatMessage.role := ChatMessage.assistant;
                      ChatMessage.content := "search" |} ]
          ++ [ {| ChatMessage.role := ChatMessage.system;
                  ChatMessage.content := "ERROR:" +:+ newline +:+ "timeout" |} ]).
Proof.
  intros this step before.
  apply (failed_step_contributes_text_then_error
           this Example.observed [] step "timeout" before);
    reflexivity.
Defined.

(** What the loop body pushes for a step: the repeated text, then at most
    one system message. *)
Lemma pushStep_shape this messages step messages' :
  pushStep this messages step = Ok messages' →
  ∃ rendered,
    messages' = messages ++ repeated step ++ rendered ∧
    (rendered = [] ∨
     ∃ content, rendered = [ {| ChatMessage.role := ChatMessage.system;
                                ChatMessage.content := content |} ]).
Proof.
  unfold pushStep, repeated. intros H.
  destruct (stateContent this step) as [[content|]|e]; simpl in H; [| |done];
    injection H as <-.
  - eexists. split; [|right; eauto].
    destruct (stepGeneratedText step); [by rewrite <- app_assoc|done].
  - exists []. split; [|by left].
    destruct (stepGeneratedText step); by rewrite ?app_nil_r.
Qed.

Lemma contentsOf_app r (l1 l2 : list OpenAIChatMessage) :
  contentsOf r (l1 ++ l2) = contentsOf r l1 ++ contentsOf r l2.
Proof. apply omap_app. Qed.

Lemma contentsOf_assistant_repeated step :
  contentsOf ChatMessage.assistant (repeated step) = option_list (stepGeneratedText step).
Proof. unfold repeated. by destruct (stepGeneratedText step). Qed.

Lemma contentsOf_user_repeated step : contentsOf ChatMessage.user (repeated step) = [].
Proof. unfold repeated. by destruct (stepGeneratedText step). Qed.

Lemma length_repeated step : length (repeated step) ≤ 1.
Proof. unfold repeated. destruct (stepGeneratedText step); simpl; lia. Qed.

(** The loop over the steps, seen through the three readings of a
    transcript. *)
Lemma forOf_pushStep_readings this steps messages messages' :
  forOf (pushStep this) steps messages = Ok messages' →
  contentsOf ChatMessage.assistant messages'
  = contentsOf ChatMessage.assistant messages ++ omap stepGeneratedText steps ∧
  contentsOf ChatMessage.user messages' = contentsOf ChatMessage.user messages ∧
  length messages ≤ length messages' ≤ length messages + 2 * length steps.
Proof.
  revert messages. induction steps as [|step steps IH]; intros messages H; simpl in H.
  - injection H as <-. simpl. rewrite app_nil_r. repeat split; lia.
  - destruct (pushStep this messages step) as [mid|e] eqn:Hstep; simpl in H; [|done].
    apply pushStep_shape in Hstep as (rendered & -> & Hrendered).
    destruct (IH _ H) as (Ha & Hu & Hlen). clear IH H.
    pose proof (length_repeated step) as Hrep.
    rewrite !contentsOf_app, contentsOf_assistant_repeated in Ha.
    rewrite !contentsOf_app, contentsOf_user_repeated in Hu.
    rewrite !length_app in Hlen.
    assert (Hr : contentsOf ChatMessage.assistant rendered = [] ∧
                 contentsOf ChatMessage.user rendered = [] ∧ length rendered ≤ 1).
    { destruct Hrendered as [->|[content ->]]; simpl; repeat split; lia. }
    destruct Hr as (Hra & Hru & Hrl). rewrite Hra in Ha. rewrite Hru in Hu.
    rewrite app_nil_r in *. simpl.
    split; [|split].
    + rewrite Ha, <- app_assoc. f_equal. by destruct (stepGeneratedText step).
    + done.
    + lia.
Qed.

(** X3: a transcript has the two opening messages and at most two messages
    per completed step. *)
Theorem transcript_length_bounds this completedSteps run messages :
  generateMessages this completedSteps run = Ok messages →
  2 ≤ length messages ≤ 2 + 2 * length completedSteps.
Proof.
  unfold generateMessages. intros H.
  apply forOf_pushStep_readings in H as (_ & _ & Hlen). simpl in Hlen. lia.
Qed.

Lemma transcript_length_bounds_witness :
  2 ≤ length
        [ {| ChatMessage.role := ChatMessage.system;
             ChatMessage.content := systemPrompt (Example.generator (Example.answering "ok") ∅) |};
          {| ChatMessage.role := ChatMessage.user;
             ChatMessage.content := "## TASK" +:+ newline +:+ "Find X" |};
          {| ChatMessage.role := ChatMessage.assistant; ChatMessage.content := "search" |};
          {| ChatMessage.role := ChatMessage.system;
             ChatMessage.content := "ERROR:" +:+ newline +:+ "timeout" |} ]
  ≤ 2 + 2 * length [ActionStep "search" (Some "search") (failed "timeout")].
Proof.
  apply (transcript_length_bounds (Example.generator (Example.answering "ok") ∅)
           [ActionStep "search" (Some "search") (failed "timeout")] Example.observed).
  reflexivity.
Defined.

(** X4: the assistant messages of a transcript are exactly the
    [generatedText]s of the completed steps that carry one, verbatim and in
    the order of the steps. *)
Theorem assistant_messages_are_generated_texts this completedSteps run messages :
  generateMessages this completedSteps run = Ok messages →
  contentsOf ChatMessage.assistant messages = omap stepGeneratedText completedSteps.
Proof.
  unfold generateMessages. intros H.
  by apply forOf_pushStep_readings in H as (-> & _ & _).
Qed.

Lemma assistant_messages_are_generated_texts_witness :
  contentsOf ChatMessage.assistant
    [ {| ChatMessage.role := ChatMessage.system;
         ChatMessage.content := systemPrompt (Example.generator (Example.answering "ok") ∅) |};
      {| ChatMessage.role := ChatMessage.user;
         ChatMessage.content := "## TASK" +:+ newline +:+ "Find X" |};
      {| ChatMessage.role := ChatMessage.system;
         ChatMessage.content := "ERROR:" +:+ newline +:+ "no text" |};
      {| ChatMessage.role := ChatMessage.assistant; ChatMessage.content := "search" |};
      {| ChatMessage.role := ChatMessage.system; ChatMessage.content := "[1,2]" |} ]
  = omap stepGeneratedText
      [ ActionStep "plan" None (failed "no text");
        ActionStep "search" (Some "search") (succeeded (JArray [JInt 1; JInt 2]) "hits") ].
Proof.
  apply (assistant_messages_are_generated_texts
           (Example.generator (Example.answering "ok") ∅)
           [ ActionStep "plan" None (failed "no text");
             ActionStep "search" (Some "search")
               (succeeded (JArray [JInt 1; JInt 2]) "hits") ]
           Example.observed).
  reflexivity.
Defined.

(** X5: the task is the only user message of a transcript: no completed step
    is ever rendered in the user role. *)
Theorem task_is_the_only_user_message this completedSteps run messages :
  generateMessages this completedSteps run = Ok messages →
  contentsOf ChatMessage.user messages = ["## TASK" +:+ newline +:+ instructions run].
Proof.
  unfold generateMessages. intros H.
  by apply forOf_pushStep_readings in H as (_ & -> & _).
Qed.

Lemma task_is_the_only_user_message_witness :
  contentsOf ChatMessage.user
    [ {| ChatMessage.role := ChatMessage.system;
         ChatMessage.content := systemPrompt (Example.generator (Example.answering "ok") ∅) |};
      {| ChatMessage.role := ChatMessage.user;
         ChatMessage.content := "## TASK" +:+ newline +:+ "Find X" |};
      {| ChatMessage.role := ChatMessage.assistant; ChatMessage.content := "search" |};
      {| ChatMessage.role := ChatMessage.system;
         ChatMessage.content := "ERROR:" +:+ newline +:+ "timeout" |} ]
  = ["## TASK" +:+ newline +:+ "Find X"].
Proof.
  apply (task_is_the_only_user_message (Example.generator (Example.answering "ok") ∅)
           [ActionStep "search" (Some "search") (failed "timeout")] Example.observed).
  reflexivity.
Defined.

(** ** One iteration after another *)

(** X6: the transcript only grows with the history: whenever the transcript
    of a history is built, the transcript of each shorter history (its first
    steps) is built too and is a prefix of it. *)
Theorem transcript_of_prefix_is_prefix this pre post run messages :
  generateMessages this (pre ++ post) run = Ok messages →
  ∃ before,
    generateMessages this pre run = Ok before ∧ before `prefix_of` messages.
Proof.
  unfold generateMessages. rewrite forOf_app. intros H.
  destruct (forOf (pushStep this) pre _) as [before|e]; simpl in H; [|done].
  exists before. split; [done|].
  apply forOf_pushStep_extends in H as [pushed ->]. by exists pushed.
Qed.

Lemma transcript_of_prefix_is_prefix_witness :
  let this := Example.generator (Example.answering "ok") ∅ in
  ∃ before,
    generateMessages this [ActionStep "plan" None (failed "no text")] Example.observed
    = Ok before ∧
    before `prefix_of`
      [ {| ChatMessage.role := ChatMessage.system; ChatMessage.content := systemPrompt this |};
        {| ChatMessage.role := ChatMessage.user;
           ChatMessage.content := "## TASK" +:+ newline +:+ "Find X" |};
        {| ChatMessage.role := ChatMessage.system;
           ChatMessage.content := "ERROR:" +:+ newline +:+ "no text" |};
        {| ChatMessage.role := ChatMessage.assistant; ChatMessage.content := "search" |} ].
Proof.
  intros this.
  apply (transcript_of_prefix_is_prefix this
           [ActionStep "plan" None (failed "no text")]
           [ActionStep "search" (Some "search") (succeeded JUndefined "pending")]
           Example.observed).
  reflexivity.
Defined.

(** X7: a history whose transcript cannot be built stays that way: every
    history that extends it throws the same error, so the steps completed
    later are never looked at. *)
Theorem throw_of_prefix_is_throw_of_history this pre post run e :
  generateMessages this pre run = Throw e →
  generateMessages this (pre ++ post) run = Throw e.
Proof.
  unfold generateMessages. rewrite forOf_app. by intros ->.
Qed.

Lemma throw_of_prefix_is_throw_of_history_witness :
  generateMessages
    (Example.generator (Example.answering "ok") {[ "search" := Example.hitsFormatter ]})
    ([ActionStep "search" None (succeeded (JString "oops") "found")]
       ++ [ActionStep "search" None (succeeded (JArray []) "found")])
    Example.observed
  = Throw (ZodError "output: expected array").
Proof.
  apply (throw_of_prefix_is_throw_of_history
           (Example.generator (Example.answering "ok") {[ "search" := Example.hitsFormatter ]})
           [ActionStep "search" None (succeeded (JString "oops") "found")]
           [ActionStep "search" None (succeeded (JArray []) "found")]
           Example.observed).
  reflexivity.
Defined.

(** The switch on a step's state throws only in the branch of a succeeded
    step whose output is present. *)
Lemma stateContent_throw this step e :
  stateContent this step = Throw e →
  ∃ output summary,
    stepState step = succeeded output summary ∧ isNullish output = false.
Proof.
  unfold stateContent.
  destruct (stepState step) as [output summary|summary] eqn:Hstate; [|done].
  destruct (isNullish output) eqn:Hpresent; [done|].
  intros _. by exists output, summary.
Qed.

Lemma forOf_pushStep_throw this steps messages e :
  forOf (pushStep this) steps messages = Throw e →
  ∃ pre step post before,
    steps = pre ++ step :: post ∧
    forOf (pushStep this) pre messages = Ok before ∧
    stateContent this step = Throw e.
Proof.
  revert messages. induction steps as [|step steps IH]; intros messages H; simpl in H; [done|].
  destruct (pushStep this messages step) as [mid|e'] eqn:Hstep; simpl in H.
  - destruct (IH _ H) as (pre & bad & post & before & -> & Hpre & Hbad).
    exists (step :: pre), bad, post, before. simpl. by rewrite Hstep.
  - injection H as ->. exists [], step, steps, messages. repeat split.
    unfold pushStep in Hstep.
    destruct (stateContent this step) as [[content|]|e'']; simpl in Hstep; congruence.
Qed.

(** X8: only a step with an output to render can make transcript
    construction throw.  When [generateMessages] throws, the history has a
    first step at which it throws; that step is [succeeded] with a present
    output, and the transcript of the steps before it is built.  Steps that
    failed and steps without output never make it throw. *)
Theorem transcript_throw_comes_from_a_present_output this completedSteps run e :
  generateMessages this completedSteps run = Throw e →
  ∃ pre step post before output summary,
    completedSteps = pre ++ step :: post ∧
    generateMessages this pre run = Ok before ∧
    generateMessages this (pre ++ [step]) run = Throw e ∧
    stepState step = succeeded output summary ∧
    isNullish output = false.
Proof.
  unfold generateMessages. intros H.
  apply forOf_pushStep_throw in H as (pre & step & post & before & -> & Hpre & Hbad).
  destruct (stateContent_throw _ _ _ Hbad) as (output & summary & Hs & Hn).
  exists pre, step, post, before, output, summary. repeat split; try done.
  rewrite forOf_snoc, Hpre. simpl. by apply pushStep_throw.
Qed.

Lemma transcript_throw_comes_from_a_present_output_witness :
  let this := Example.generator (Example.answering "ok") {[ "search" := Example.hitsFormatter ]} in
  ∃ pre step post before output summary,
    [ ActionStep "search" None (failed "timeout");
      ActionStep "search" None (succeeded (JString "oops") "found");
      ActionStep "search" None (succeeded JNull "nothing") ]
    = pre ++ step :: post ∧
    generateMessages this pre Example.observed = Ok before ∧
    generateMessages this (pre ++ [step]) Example.observed
    = Throw (ZodError "output: expected array") ∧
    stepState step = succeeded output summary ∧
    isNullish output = false.
Proof.
  intros this.
  apply (transcript_throw_comes_from_a_present_output this
           [ ActionStep "search" None (failed "timeout");
             ActionStep "search" None (succeeded (JString "oops") "found");
             ActionStep "search" None (succeeded JNull "nothing") ]
           Example.observed).
  reflexivity.
Defined.

(** * Further properties of generateNextStep *)

(** X10: a rejection of the text generator is not caught.  The call throws
    the generator's error; the first hook (with an observer) and the model
    call are all that happened: the parser and the registry are not reached,
    the second hook is not invoked and no step is made. *)
Theorem rejected_generation_propagates this completedSteps run messages e trace :
  generateMessages this completedSteps run = Ok messages →
  generateText (textGenerator this) messages run = Throw e →
  generateNextStep this completedSteps run trace
  = (Throw e,
     trace ++ hook run (OnStepGenerationStarted run messages) ++ [GenerateText messages run]).
Proof.
  intros Hm Ht.
  unfold generateNextStep, hook, notify, call, lift, mbind, Async_bind, mret, Async_ret.
  rewrite Hm. destruct (observer run); rewrite Ht; simpl; by rewrite <- ?app_assoc.
Qed.

Lemma rejected_generation_propagates_witness :
  let this := Example.generator Example.unreachable ∅ in
  let messages :=
    [ {| ChatMessage.role := ChatMessage.system; ChatMessage.content := systemPrompt this |};
      {| ChatMessage.role := ChatMessage.user;
         ChatMessage.content := "## TASK" +:+ newline +:+ "Find X" |} ] in
  generateNextStep this [] Example.unobserved []
  = (Throw (Error "network down"),
     [] ++ hook Example.unobserved (OnStepGenerationStarted Example.unobserved messages)
        ++ [GenerateText messages Example.unobserved]).
Proof.
  intros this messages.
  apply (rejected_generation_propagates this [] Example.unobserved messages
           (Error "network down") []);
    reflexivity.
Defined.

(** X11: a throw of the parser is not caught either.  The call throws the
    parser's error right after the model call: no action is looked up, the
    second hook is not invoked and no step, not even an error step, is
    made. *)
Theorem unparsed_answer_propagates this completedSteps run messages generatedText e trace :
  generateMessages this completedSteps run = Ok messages →
  generateText (textGenerator this) messages run = Ok generatedText →
  format_parse (actionRegistry this) generatedText = Throw e →
  generateNextStep this completedSteps run trace
  = (Throw e,
     trace ++ hook run (OnStepGenerationStarted run messages)
           ++ [GenerateText messages run; Parse generatedText]).
Proof.
  intros Hm Ht Hp.
  unfold generateNextStep, hook, notify, call, lift, mbind, Async_bind, mret, Async_ret.
  rewrite Hm. destruct (observer run); rewrite Ht, Hp; simpl; by rewrite <- ?app_assoc.
Qed.

Lemma unparsed_answer_propagates_witness :
  let this := Example.generator (Example.answering "") ∅ in
  let messages :=
    [ {| ChatMessage.role := ChatMessage.system; ChatMessage.content := systemPrompt this |};
      {| ChatMessage.role := ChatMessage.user;
         ChatMessage.content := "## TASK" +:+ newline +:+ "Find X" |} ] in
  generateNextStep this [] Example.observed []
  = (Throw (Error "no text"),
     [] ++ hook Example.observed (OnStepGenerationStarted Example.observed messages)
        ++ [GenerateText messages Example.observed; Parse ""]).
Proof.
  intros this messages.
  apply (unparsed_answer_propagates this [] Example.observed messages "" (Error "no text") []);
    reflexivity.
Defined.

(** X12: when the parser names an action the registry knows and the
    handler's [createStep] resolves, the call returns exactly the step the
    handler made.  The handler was looked up under the parsed identifier and
    given the raw model text and the whole parsed record; the second hook
    gets that same step. *)
Theorem created_step_is_returned
    this completedSteps run messages generatedText actionParameters id handler created trace :
  generateMessages this completedSteps run = Ok messages →
  generateText (textGenerator this) messages run = Ok generatedText →
  format_parse (actionRegistry this) generatedText = Ok actionParameters →
  action actionParameters = Some id →
  getAction (actionRegistry this) id = Ok handler →
  createStep handler generatedText actionParameters = Ok created →
  generateNextStep this completedSteps run trace
  = (Ok created,
     trace ++ hook run (OnStepGenerationStarted run messages)
           ++ [GenerateText messages run; Parse generatedText;
               GetAction id; CreateStep generatedText actionParameters]
           ++ hook run (OnStepGenerationFinished run generatedText created)).
Proof.
  intros Hm Ht Hp Hid Hlookup Hcreate.
  destruct (generateNextStep_parsed _ _ _ _ _ _ trace Hm Ht Hp)
    as (step & dispatch & -> & Hstep).
  rewrite Hid, Hlookup, Hcreate in Hstep. by destruct Hstep as [-> ->].
Qed.

Lemma created_step_is_returned_witness :
  let this := Example.generator (Example.answering "search") ∅ in
  let messages :=
    [ {| ChatMessage.role := ChatMessage.system; ChatMessage.content := systemPrompt this |};
      {| ChatMessage.role := ChatMessage.user;
         ChatMessage.content := "## TASK" +:+ newline +:+ "Find X" |} ] in
  let actionParameters :=
    {| action := Some "search"; _freeText := ""; fields := [("query", JString "X")] |} in
  let created := ActionStep "search" (Some "search") (succeeded JUndefined "pending search") in
  generateNextStep this [] Example.observed []
  = (Ok created,
     [] ++ hook Example.observed (OnStepGenerationStarted Example.observed messages)
        ++ [GenerateText messages Example.observed; Parse "search";
            GetAction "search"; CreateStep "search" actionParameters]
        ++ hook Example.observed (OnStepGenerationFinished Example.observed "search" created)).
Proof.
  intros this messages actionParameters created.
  apply (created_step_is_returned this [] Example.observed messages "search"
           actionParameters "search" Example.searchAction created []);
    reflexivity.
Defined.

(** X13: what one call does at most, whatever the text generator, the
    parser, the registry and the handlers answer.  The trace is only appended
    to; the call makes at most one model call and invokes each hook at most
    once; the second hook is never invoked without the first, nor without the
    model call; and a call that returns a step has made exactly one model
    call. *)
Theorem one_call_one_generation this completedSteps run trace :
  ∃ new,
    (generateNextStep this completedSteps run trace).2 = trace ++ new ∧
    invocations isGenerateText new ≤ 1 ∧
    invocations isStarted new ≤ 1 ∧
    invocations isFinished new ≤ invocations isStarted new ∧
    invocations isFinished new ≤ invocations isGenerateText new ∧
    ∀ step,
      (generateNextStep this completedSteps run trace).1 = Ok step →
      invocations isGenerateText new = 1.
Proof.
  unfold generateNextStep, notify, tryCatch, call, lift, mbind, Async_bind, mret, Async_ret.
  destruct (generateMessages this completedSteps run) as [messages|e0].
  2: { exists []. rewrite app_nil_r. simpl. split; [reflexivity|].
       unfold invocations; simpl. repeat split; try (intros ? [=]); lia. }
  destruct (observer run);
    destruct (generateText (textGenerator this) messages run) as [text|e1]; simpl;
    try destruct (format_parse (actionRegistry this) text) as [params|e2]; simpl;
    try destruct (action params) as [id|]; simpl;
    try destruct (getAction (actionRegistry this) id) as [handler|e3]; simpl;
    try destruct (createStep handler text params) as [created|e4]; simpl;
    rewrite <- ?app_assoc; simpl;
    (eexists; split; [reflexivity|]); unfold invocations; simpl; repeat split;
    try (intros ? [=]); lia.
Qed.

(** X14: a thought costs no registry lookup.  When the parsed record names
    no action, nothing happens between the parse and the second hook:
    [getAction] and [createStep] are not called. *)
Theorem thought_step_looks_up_no_action
    this completedSteps run messages generatedText actionParameters trace :
  generateMessages this completedSteps run = Ok messages →
  generateText (textGenerator this) messages run = Ok generatedText →
  format_parse (actionRegistry this) generatedText = Ok actionParameters →
  action actionParameters = None →
  (generateNextStep this completedSteps run trace).2
  = trace ++ hook run (OnStepGenerationStarted run messages)
          ++ [GenerateText messages run; Parse generatedText]
          ++ hook run (OnStepGenerationFinished run generatedText
                         (NoopStep "thought" generatedText (_freeText actionParameters))).
Proof.
  intros Hm Ht Hp Hnone.
  destruct (generateNextStep_parsed _ _ _ _ _ _ trace Hm Ht Hp)
    as (step & dispatch & -> & Hstep).
  rewrite Hnone in Hstep. by destruct Hstep as [-> ->].
Qed.

Lemma thought_step_looks_up_no_action_witness :
  let this := Example.generator (Example.answering "I should search for X first.") ∅ in
  let messages :=
    [ {| ChatMessage.role := ChatMessage.system; ChatMessage.content := systemPrompt this |};
      {| ChatMessage.role := ChatMessage.user;
         ChatMessage.content := "## TASK" +:+ newline +:+ "Find X" |} ] in
  (generateNextStep this [] Example.unobserved []).2
  = [] ++ hook Example.unobserved (OnStepGenerationStarted Example.unobserved messages)
       ++ [GenerateText messages Example.unobserved; Parse "I should search for X first."]
       ++ hook Example.unobserved
            (OnStepGenerationFinished Example.unobserved "I should search for X first."
               (NoopStep "thought" "I should search for X first."
                  (_freeText {| action := None;
                                _freeText := "I should search for X first.";
                                fields := [] |}))).
Proof.
  intros this messages.
  apply (thought_step_looks_up_no_action this [] Example.unobserved messages
           "I should search for X first."
           {| action := None; _freeText := "I should search for X first."; fields := [] |} []);
    reflexivity.
Defined.

(** X15: when the registry does not know the parsed identifier, the lookup
    is the last thing tried: no handler's [createStep] is called, and the
    second hook receives the error step holding the lookup error. *)
Theorem unknown_action_creates_no_step
    this completedSteps run messages generatedText actionParameters id error trace :
  generateMessages this completedSteps run = Ok messages →
  generateText (textGenerator this) messages run = Ok generatedText →
  format_parse (actionRegistry this) generatedText = Ok actionParameters →
  action actionParameters = Some id →
  getAction (actionRegistry this) id = Throw error →
  (generateNextStep this completedSteps run trace).2
  = trace ++ hook run (OnStepGenerationStarted run messages)
          ++ [GenerateText messages run; Parse generatedText; GetAction id]
          ++ hook run (OnStepGenerationFinished run generatedText
                         (ErrorStep generatedText error)).
Proof.
  intros Hm Ht Hp Hid Hlookup.
  destruct (generateNextStep_parsed _ _ _ _ _ _ trace Hm Ht Hp)
    as (step & dispatch & -> & Hstep).
  rewrite Hid, Hlookup in Hstep. by destruct Hstep as [-> ->].
Qed.

Lemma unknown_action_creates_no_step_witness :
  let this := Example.generator (Example.answering "fly") ∅ in
  let messages :=
    [ {| ChatMessage.role := ChatMessage.system; ChatMessage.content := systemPrompt this |};
      {| ChatMessage.role := ChatMessage.user;
         ChatMessage.content := "## TASK" +:+ newline +:+ "Find X" |} ] in
  (generateNextStep this [] Example.observed []).2
  = [] ++ hook Example.observed (OnStepGenerationStarted Example.observed messages)
       ++ [GenerateText messages Example.observed; Parse "fly"; GetAction "fly"]
       ++ hook Example.observed
            (OnStepGenerationFinished Example.observed "fly"
               (ErrorStep "fly" (Error "unknown action fly"))).
Proof.
  intros this messages.
  apply (unknown_action_creates_no_step this [] Example.observed messages "fly"
           {| action := Some "fly"; _freeText := ""; fields := [] |} "fly"
           (Error "unknown action fly") []);
    reflexivity.
Defined.
